(** * Costing engine of the partner/services catalog ([app.py])

    A shallow embedding of [calculate_service_cost] and
    [calculate_material_quantity] together with the part of the data model
    they read, and the properties of the costing engine proved on it.

    - Python [float] is IEEE-754 binary64; it is modelled by the reference
      definitions of [SpecFloat] at precision 53 and maximal exponent 1024.
    - [db.Numeric] columns are read back as Python [Decimal] values.
    - Tables with a single-column primary key are finite maps from the key;
      [service_materials], which is filtered by a non-key column and whose
      row order decides the order of the floating-point summation, is a list.
    - [logger.error] is modelled by the list of records that were emitted. *)

From stdpp Require Import gmap strings list fin_maps.
From Stdlib Require Import ZArith Lia.
From Stdlib Require Import Floats.SpecFloat.

Local Open Scope Z_scope.

(* ===================================================================== *)
(** ** Python values and exceptions *)
(* ===================================================================== *)

(** Binary64: 53 bits of precision, exponent of the infinities 1024. *)
Definition prec : Z := 53.
Definition emax : Z := 1024.

Definition float : Type := spec_float.

Definition fzero : float := S754_zero false.
Definition fone : float := S754_finite false 4503599627370496 (-52).

Definition fmul (x y : float) : float := SFmul prec emax x y.
Definition fadd (x y : float) : float := SFadd prec emax x y.
Definition fdiv (x y : float) : float := SFdiv prec emax x y.
Definition fleb (x y : float) : bool := SFleb x y.
Definition fltb (x y : float) : bool := SFltb x y.

(** A value is a double when mantissa and exponent are in canonical form. *)
Definition is_double (x : float) : Prop := valid_binary prec emax x = true.

Definition is_finite (x : float) : bool :=
  match x with
  | S754_zero _ | S754_finite _ _ _ => true
  | _ => false
  end.

(** The exceptions the arithmetic of the engine can raise. *)
Inductive Exn : Type :=
  | OverflowError
  | ValueError.

(** Propagation of a raised exception through a sequence of statements. *)
#[global] Instance exn_bind : MBind (sum Exn) := fun A B k x =>
  match x with
  | inl e => inl e
  | inr a => k a
  end.

(** The dynamically typed values the engine is called with and returns. *)
Inductive PyVal : Type :=
  | PyNone
  | PyBool (b : bool)
  | PyInt (z : Z)
  | PyFloat (f : float)
  | PyStr (s : string).

(** [isinstance(v, int)]: [bool] is a subclass of [int]. *)
Definition as_int (v : PyVal) : option Z :=
  match v with
  | PyInt z => Some z
  | PyBool b => Some (if b then 1 else 0)
  | _ => None
  end.

Inductive number : Type :=
  | NInt (z : Z)
  | NFloat (f : float).

(** [isinstance(v, (int, float))]. *)
Definition as_number (v : PyVal) : option number :=
  match v with
  | PyFloat f => Some (NFloat f)
  | _ => NInt <$> as_int v
  end.

(** [x <= 0] for a number. *)
Definition number_le_zero (x : number) : bool :=
  match x with
  | NInt z => z <=? 0
  | NFloat f => fleb f fzero
  end.

(** Conversion of an [int] operand in mixed arithmetic: correctly rounded,
    [OverflowError] ("int too large to convert to float") beyond the range. *)
Definition int_to_float (z : Z) : Exn + float :=
  match binary_normalize prec emax z 0 false with
  | S754_infinity _ => inl OverflowError
  | f => inr f
  end.

Definition to_float (x : number) : Exn + float :=
  match x with
  | NInt z => int_to_float z
  | NFloat f => inr f
  end.

(** [math.ceil]: the least integer not below the exact value of a finite
    double; [ValueError] on NaN and [OverflowError] on an infinity. *)
Definition py_ceil (x : float) : Exn + Z :=
  match x with
  | S754_nan => inl ValueError
  | S754_infinity _ => inl OverflowError
  | S754_zero _ => inr 0
  | S754_finite s m e =>
      let n := cond_Zopp s (Zpos m) in
      inr (match e with
           | Zneg p => - ((- n) / 2 ^ Zpos p)
           | _ => n * 2 ^ e
           end)
  end.

(** Quotient of [n] by [d] rounded to the nearest integer, ties to even. *)
Definition div_half_even (n d : Z) : Z :=
  let q := n / d in
  match 2 * (n mod d) ?= d with
  | Lt => q
  | Gt => q + 1
  | Eq => if Z.even q then q else q + 1
  end.

(** [round(x, 2)] on a float: the exact value is rounded half-even to two
    decimal places and the decimal result is converted back to the nearest
    double; NaN and the infinities are returned unchanged. *)
Definition py_round2 (x : float) : float :=
  match x with
  | S754_finite s m e =>
      let hundredths :=
        match e with
        | Zneg p => div_half_even (Zpos m * 100) (2 ^ Zpos p)
        | _ => Zpos m * 100 * 2 ^ e
        end in
      match hundredths with
      | Zpos c => fdiv (S754_finite s c 0) (S754_finite false 100 0)
      | _ => S754_zero s
      end
  | _ => x
  end.

(* ===================================================================== *)
(** ** Decimal *)
(* ===================================================================== *)

(** A [Decimal] read from a [Numeric(p, s)] column: [unscaled / 10^scale].
    The columns hold at most ten digits, so the products the engine forms
    have at most twenty, within the 28 digits of the default context:
    multiplication is exact. *)
Record Decimal : Type := mkDecimal { unscaled : Z; scale : nat }.

Definition dec_mul (a b : Decimal) : Decimal :=
  {| unscaled := unscaled a * unscaled b; scale := (scale a + scale b)%nat |}.

Definition pow10 (k : nat) : positive := Z.to_pos (10 ^ Z.of_nat k).

(** [float(d)]: the double nearest to the decimal value. *)
Definition float_of_decimal (d : Decimal) : float :=
  match unscaled d with
  | Z0 => S754_zero false
  | Zpos p => fdiv (S754_finite false p 0) (S754_finite false (pow10 (scale d)) 0)
  | Zneg p => fdiv (S754_finite true p 0) (S754_finite false (pow10 (scale d)) 0)
  end.

(* ===================================================================== *)
(** ** The catalog *)
(* ===================================================================== *)

(** [service_types]: key [type_name]. *)
Record ServiceType : Type := mkServiceType {
  complexity_coefficient : Decimal           (* Numeric(3, 1) *)
}.

(** [services]: key [service_code]. *)
Record Service : Type := mkService {
  service_type_name : string;
  service_name : string;
  min_cost : Decimal;                        (* Numeric(10, 2) *)
  time_norm_hours : Decimal;                 (* Numeric(5, 2) *)
  hourly_rate : Decimal                      (* Numeric(10, 2) *)
}.

(** [material_types]: key [type_name]. *)
Record MaterialType : Type := mkMaterialType {
  overconsumption_percent : Decimal          (* Numeric(3, 2) *)
}.

(** [materials]: key [material_id]. *)
Record Material : Type := mkMaterial {
  material_type_name : string;
  material_name : string;
  current_price : Decimal                    (* Numeric(10, 2) *)
}.

(** [service_materials]: a row per (service, material) pair. *)
Record ServiceMaterial : Type := mkServiceMaterial {
  sm_service_code : string;
  sm_material_id : Z;
  consumption_norm : Decimal                 (* Numeric(10, 2) *)
}.

Record Catalog : Type := mkCatalog {
  service_types : gmap string ServiceType;
  services : gmap string Service;
  material_types : gmap string MaterialType;
  materials : gmap Z Material;
  service_materials : list ServiceMaterial
}.

(** [ServiceMaterial.query.filter_by(service_code=service_code).all()] *)
Definition materials_of_service (db : Catalog) (service_code : string)
  : list ServiceMaterial :=
  filter (fun sm => sm_service_code sm = service_code) (service_materials db).

(* ===================================================================== *)
(** ** Logging and results *)
(* ===================================================================== *)

(** The records [logger.error] is called with, one constructor per message. *)
Inductive LogRecord : Type :=
  | ServiceNotFound (service_code : string)
  | NoMaterialsFound (service_code : string)
  | MaterialNotFound (material_id : Z)
  | ErrorCalculatingServiceCost (service_code : string) (e : Exn)
  | InvalidQuantity (quantity : PyVal)
  | InvalidServiceParams (service_params : PyVal)
  | ServiceTypeNotFound (service_type : string)
  | MaterialTypeNotFound (material_type : string)
  | ErrorCalculatingMaterialQuantity (e : Exn).

(** What a call leaves behind: the records logged and the value returned. *)
Record Outcome : Type := mkOutcome {
  logged : list LogRecord;
  returned : PyVal
}.

(** [return v] *)
Definition ret (v : PyVal) : Outcome := {| logged := []; returned := v |}.

(** [logger.error(r); return -1] *)
Definition fail (r : LogRecord) : Outcome :=
  {| logged := [r]; returned := PyInt (-1) |}.

(* ===================================================================== *)
(** ** calculate_service_cost *)
(* ===================================================================== *)

(** The [for sm in service_materials] loop: [inl id] when the material [id]
    of a row does not resolve (the function returns at once), otherwise the
    accumulated [material_cost]. *)
Fixpoint sum_material_cost (mats : gmap Z Material) (rows : list ServiceMaterial)
    (material_cost : float) : Z + float :=
  match rows with
  | [] => inr material_cost
  | sm :: rows' =>
      match mats !! sm_material_id sm with
      | None => inl (sm_material_id sm)
      | Some material =>
          sum_material_cost mats rows'
            (fadd material_cost
               (float_of_decimal (dec_mul (consumption_norm sm) (current_price material))))
      end
  end.

(** [material_cost = 0] is the integer zero; the first [+=] converts it to
    [0.0], and the loop runs at least once when the function gets that far.
    Neither the lookups in the catalog nor the arithmetic on [Decimal] and
    [float] raise here, so the [except] clause is not reached. *)
Definition calculate_service_cost (db : Catalog) (service_code : string) : Outcome :=
  match services db !! service_code with
  | None => fail (ServiceNotFound service_code)
  | Some service =>
      let labor_cost :=
        float_of_decimal (dec_mul (time_norm_hours service) (hourly_rate service)) in
      match materials_of_service db service_code with
      | [] => fail (NoMaterialsFound service_code)
      | rows =>
          match sum_material_cost (materials db) rows fzero with
          | inl material_id => fail (MaterialNotFound material_id)
          | inr material_cost =>
              let total_cost := fadd labor_cost material_cost in
              ret (PyFloat (py_round2 total_cost))
          end
      end
  end.

(* ===================================================================== *)
(** ** calculate_material_quantity *)
(* ===================================================================== *)

(** The default limit of CPython on the conversion of an [int] to a decimal
    string ([sys.get_int_max_str_digits()]). *)
Definition int_max_str_digits : Z := 4300.

(** [f"{v}"] in a log message: an [int] of more decimal digits than the limit
    raises [ValueError]; a [bool], a [float], a [str] and [None] always
    format. *)
Definition format_value (v : PyVal) : Exn + unit :=
  match v with
  | PyInt z => if 10 ^ int_max_str_digits <=? Z.abs z then inl ValueError else inr ()
  | _ => inr ()
  end.


(** [logger.error(f"Invalid ...: {v}"); return -1] inside the [try] block:
    when the message cannot be formatted, the [except] clause logs the
    exception instead. *)
Definition reject (r : PyVal -> LogRecord) (v : PyVal) : Outcome :=
  match format_value v with
  | inl e => fail (ErrorCalculatingMaterialQuantity e)
  | inr _ => fail (r v)
  end.

(** The arithmetic of the [try] block once both types are resolved; an
    exception leaves it for the [except] clause. *)
Definition material_quantity_formula (service_params : number) (quantity : Z)
    (coefficient overconsumption_pct : Decimal) : Exn + Z :=
  sp ← to_float service_params;
  let base_quantity := fmul sp (float_of_decimal coefficient) in
  let overconsumption := float_of_decimal overconsumption_pct in
  q ← int_to_float quantity;
  let total_quantity := fmul (fmul base_quantity q) (fadd fone overconsumption) in
  py_ceil total_quantity.

Definition calculate_material_quantity (db : Catalog)
    (service_type material_type : string) (quantity service_params : PyVal)
  : Outcome :=
  match as_int quantity with
  | None => reject InvalidQuantity quantity
  | Some q =>
      if q <=? 0 then reject InvalidQuantity quantity else
      match as_number service_params with
      | None => reject InvalidServiceParams service_params
      | Some sp =>
          if number_le_zero sp then reject InvalidServiceParams service_params else
          match service_types db !! service_type with
          | None => fail (ServiceTypeNotFound service_type)
          | Some service_type_data =>
              match material_types db !! material_type with
              | None => fail (MaterialTypeNotFound material_type)
              | Some material_type_data =>
                  match material_quantity_formula sp q
                          (complexity_coefficient service_type_data)
                          (overconsumption_percent material_type_data) with
                  | inl e => fail (ErrorCalculatingMaterialQuantity e)
                  | inr n => ret (PyInt n)
                  end
              end
          end
      end
  end.

(* ===================================================================== *)
(** ** Rounding, arithmetically *)
(* ===================================================================== *)

(** The reference definitions round by shifting bit by bit; the functions
    below say the same with divisions, and the lemmas further down relate
    the two. *)

(** The exponent a number [m * 2^e] is rounded at. *)
Definition cexp (m e : Z) : Z := fexp prec emax (Zdigits2 m + e).

(** The float denoted by a rounded mantissa and exponent: overflow gives an
    infinity. *)
Definition finish (s : bool) (me : Z * Z) : float :=
  match fst me with
  | Z0 => S754_zero s
  | Zpos p => if snd me <=? emax - prec then S754_finite s p (snd me) else S754_infinity s
  | Zneg _ => S754_nan
  end.

(** Renormalisation after a rounding that carried into a 54th bit. *)
Definition carry (m k : Z) : Z * Z :=
  if m =? 2 ^ 53 then (2 ^ 52, k + 1) else (m, k).

(** [m1 * 2^e1 <= m2 * 2^e2], compared at the smaller exponent. *)
Definition dle (m1 e1 m2 e2 : Z) : Prop :=
  m1 * 2 ^ (e1 - Z.min e1 e2) <= m2 * 2 ^ (e2 - Z.min e1 e2).

(** Rounding of [m * 2^e] to nearest, ties to even, when [e] is not above
    the exponent it is rounded at. *)
Definition rnd (m e : Z) : Z * Z :=
  carry (div_half_even m (2 ^ (cexp m e - e))) (cexp m e).

(** Mantissa and exponent of a double in canonical form. *)
Definition canon (m e : Z) : Prop :=
  0 <= m < 2 ^ 53 /\ -1074 <= e /\ (-1074 < e -> 2 ^ 52 <= m).

(** The same number with the exponent lowered to the rounding exponent. *)
Definition align (m e : Z) : Z * Z :=
  if cexp m e <? e then (m * 2 ^ (e - cexp m e), cexp m e) else (m, e).

Definition rnd_any (m e : Z) : Z * Z := rnd (fst (align m e)) (snd (align m e)).

(** Shape of the values that are not negative: [+0.0], a positive double,
    or [+inf]. *)
Definition nonneg (x : float) : Prop :=
  match x with
  | S754_zero false | S754_infinity false => True
  | S754_finite false _ _ => is_double x
  | _ => False
  end.

(* ===================================================================== *)
(** ** Failure categories *)
(* ===================================================================== *)

(** Modelled from the spec: the taxonomy of failures of section 7; the code
    has no such type, it logs one message per cause and returns [-1]. *)
Inductive FailureCategory : Type :=
  | NotFound
  | NoMaterials
  | InvalidInput
  | Unexpected.

(** The category each logged message stands for. *)
Definition category (r : LogRecord) : FailureCategory :=
  match r with
  | ServiceNotFound _ | MaterialNotFound _
  | ServiceTypeNotFound _ | MaterialTypeNotFound _ => NotFound
  | NoMaterialsFound _ => NoMaterials
  | InvalidQuantity _ | InvalidServiceParams _ => InvalidInput
  | ErrorCalculatingServiceCost _ _ | ErrorCalculatingMaterialQuantity _ => Unexpected
  end.

(** A call fails with category [c]: it logs a message of that category and
    returns the sentinel. *)
Definition fails_with (o : Outcome) (c : FailureCategory) : Prop :=
  exists r, o = fail r /\ category r = c.

(* ===================================================================== *)
(** ** The formulas of the specification *)
(* ===================================================================== *)

(** [consumptionNorm * material.currentPrice] of one row, as a float. *)
Definition row_cost (mats : gmap Z Material) (sm : ServiceMaterial) : float :=
  match mats !! sm_material_id sm with
  | Some material =>
      float_of_decimal (dec_mul (consumption_norm sm) (current_price material))
  | None => fzero
  end.


(** [serviceParams * complexityCoefficient * quantity * (1 + overconsumptionPercent)],
    every operation in binary64. *)
Definition spec_total_quantity (service_params : float) (coefficient : Decimal)
    (quantity : float) (overconsumption_pct : Decimal) : float :=
  fmul (fmul (fmul service_params (float_of_decimal coefficient)) quantity)
       (fadd fone (float_of_decimal overconsumption_pct)).

(** The catalog after the [min_cost] of one service has been changed. *)
Definition set_min_cost (m : Decimal) (s : Service) : Service :=
  {| service_type_name := service_type_name s;
     service_name := service_name s;
     min_cost := m;
     time_norm_hours := time_norm_hours s;
     hourly_rate := hourly_rate s |}.

Definition with_min_cost (db : Catalog) (service_code : string) (m : Decimal) : Catalog :=
  {| service_types := service_types db;
     services := alter (set_min_cost m) service_code (services db);
     material_types := material_types db;
     materials := materials db;
     service_materials := service_materials db |}.

(* ===================================================================== *)
(** ** A sample catalog *)
(* ===================================================================== *)

(** The services, types and materials of the examples of the specification,
    and a few rows that exercise the failure paths. *)
Definition sample_catalog : Catalog :=
  {| service_types :=
       <["A" := mkServiceType (mkDecimal 15 1)]>
       (<["C" := mkServiceType (mkDecimal 8 1)]>
       (<["D" := mkServiceType (mkDecimal 20 1)]>
       (<["E" := mkServiceType (mkDecimal 1 1)]> ∅)));
     services :=
       <["S1" := mkService "A" "Assembly" (mkDecimal 100000 2) (mkDecimal 200 2) (mkDecimal 50000 2)]>
       (<["S2" := mkService "A" "Survey" (mkDecimal 0 2) (mkDecimal 100 2) (mkDecimal 100 2)]>
       (<["S3" := mkService "C" "Audit" (mkDecimal 0 2) (mkDecimal 100 2) (mkDecimal 100 2)]>
       (<["S4" := mkService "C" "Refit" (mkDecimal 0 2) (mkDecimal 100 2) (mkDecimal 100 2)]>
       (<["S5" := mkService "C" "Refund" (mkDecimal 0 2) (mkDecimal 100 2) (mkDecimal (-500) 2)]> ∅))));
     material_types :=
       <["B" := mkMaterialType (mkDecimal 10 2)]>
       (<["Q" := mkMaterialType (mkDecimal 25 2)]>
       (<["Z" := mkMaterialType (mkDecimal 0 2)]> ∅));
     materials :=
       <[1 := mkMaterial "B" "Paint" (mkDecimal 5000 2)]>
       (<[2 := mkMaterial "B" "Glue" (mkDecimal 50 2)]>
       (<[3 := mkMaterial "Q" "Tape" (mkDecimal 100 2)]> ∅));
     service_materials :=
       [ mkServiceMaterial "S1" 1 (mkDecimal 400 2);
         mkServiceMaterial "S2" 2 (mkDecimal 3 2);
         mkServiceMaterial "S4" 1 (mkDecimal 100 2);
         mkServiceMaterial "S4" 7 (mkDecimal 100 2);
         mkServiceMaterial "S5" 3 (mkDecimal 100 2) ] |}.

(** [2.0], [1e308] and the least positive double [5e-324]. *)
Definition f_two : float := S754_finite false 4503599627370496 (-51).
Definition f_1e308 : float := S754_finite false 5010420900022432 971.
Definition f_5e324 : float := S754_finite false 1 (-1074).

(* ===================================================================== *)
(** ** Changes of the catalog *)
(* ===================================================================== *)

(** The catalog with another [service_materials] table. *)
Definition with_service_materials (db : Catalog) (rows : list ServiceMaterial) : Catalog :=
  {| service_types := service_types db;
     services := services db;
     material_types := material_types db;
     materials := materials db;
     service_materials := rows |}.

(** The catalog with another [materials] table. *)
Definition with_materials (db : Catalog) (mats : gmap Z Material) : Catalog :=
  {| service_types := service_types db;
     services := services db;
     material_types := material_types db;
     materials := mats;
     service_materials := service_materials db |}.

(* ===================================================================== *)
(** ** The pages of the costing engine *)
(* ===================================================================== *)

(** The targets of [redirect(url_for(...))]. *)
Inductive Endpoint : Type :=
  | index_endpoint
  | material_endpoint.

(** The messages given to [flash], one constructor per text (the texts are
    in Russian in the source). *)
Inductive FlashMessage : Type :=
  | ServiceNotFoundFlash                   (* cost: the service is not found *)
  | QuantityNotPositiveFlash               (* material: quantity must be positive *)
  | ParamsNotPositiveFlash                 (* material: parameters must be positive *)
  | WrongTypeFlash                         (* material: wrong service or material type *)
  | QuantityNeededFlash (result : PyVal)   (* material: the quantity needed is ... *)
  | BadDataFlash                           (* material: ValueError of int() or float() *)
  | ErrorFlash (missing_key : string).     (* material: any other exception *)

Inductive FlashCategory : Type :=
  | error_category
  | success_category.

(** The second argument of [flash]. *)
Definition flash_category (m : FlashMessage) : FlashCategory :=
  match m with
  | QuantityNeededFlash _ => success_category
  | _ => error_category
  end.

(** What the pages log: the records of the engine (the page [cost] logs
    "Service not found" with the text of the engine) and the two messages
    of the [except] clauses of [material]. *)
Inductive PageLogRecord : Type :=
  | Logged (r : LogRecord)
  | InvalidMaterialInput
  | MaterialCalculationError (missing_key : string).

Inductive Response : Type :=
  | Redirect (target : Endpoint)
  | RenderCost (service_code service_name : string) (total_cost : PyVal)
  | RenderMaterial (service_types : gmap string ServiceType)
                   (material_types : gmap string MaterialType).

Record PageResult : Type := mkPageResult {
  page_logged : list PageLogRecord;
  flashed : list FlashMessage;
  response : Response
}.

(** [cost(service_code)], the page [/cost/<service_code>]. *)
Definition cost (db : Catalog) (service_code : string) : PageResult :=
  let total_cost := calculate_service_cost db service_code in
  match services db !! service_code with
  | None =>
      {| page_logged := (Logged <$> logged total_cost) ++ [Logged (ServiceNotFound service_code)];
         flashed := [ServiceNotFoundFlash];
         response := Redirect index_endpoint |}
  | Some service =>
      {| page_logged := Logged <$> logged total_cost;
         flashed := [];
         response := RenderCost service_code (service_name service) (returned total_cost) |}
  end.

Inductive Method : Type :=
  | GET
  | POST.

(** [result == -1] *)
Definition is_minus_one (v : PyVal) : bool :=
  match v with
  | PyInt z => z =? -1
  | PyFloat f => SFeqb f (S754_finite true 4503599627370496 (-52))
  | _ => false
  end.

(** [flash(m, ...); return redirect(url_for('material'))] *)
Definition material_answer (logs : list PageLogRecord) (m : FlashMessage) : PageResult :=
  {| page_logged := logs; flashed := [m]; response := Redirect material_endpoint |}.

(** [material()], the page [/material]. The form is the mapping of the
    posted fields; a missing field raises a [KeyError] for the general
    [except] clause. The built-in conversions [int] and [float] of a string
    are the parameters [int_of] and [float_of], [None] standing for the
    [ValueError] they raise. *)
Definition material (int_of : string -> option Z) (float_of : string -> option float)
    (db : Catalog) (method : Method) (form : gmap string string) : PageResult :=
  match method with
  | GET =>
      {| page_logged := []; flashed := [];
         response := RenderMaterial (service_types db) (material_types db) |}
  | POST =>
      match form !! "service_type" with
      | None => material_answer [MaterialCalculationError "service_type"]
                                (ErrorFlash "service_type")
      | Some service_type =>
      match form !! "material_type" with
      | None => material_answer [MaterialCalculationError "material_type"]
                                (ErrorFlash "material_type")
      | Some material_type =>
      match form !! "quantity" with
      | None => material_answer [MaterialCalculationError "quantity"]
                                (ErrorFlash "quantity")
      | Some quantity_field =>
      match int_of quantity_field with
      | None => material_answer [InvalidMaterialInput] BadDataFlash
      | Some quantity =>
      match form !! "service_params" with
      | None => material_answer [MaterialCalculationError "service_params"]
                                (ErrorFlash "service_params")
      | Some params_field =>
      match float_of params_field with
      | None => material_answer [InvalidMaterialInput] BadDataFlash
      | Some service_params =>
          if quantity <=? 0 then material_answer [] QuantityNotPositiveFlash
          else if fleb service_params fzero then material_answer [] ParamsNotPositiveFlash
          else
            let result := calculate_material_quantity db service_type material_type
                            (PyInt quantity) (PyFloat service_params) in
            if is_minus_one (returned result)
            then material_answer (Logged <$> logged result) WrongTypeFlash
            else material_answer (Logged <$> logged result)
                                 (QuantityNeededFlash (returned result))
      end end end end end end
  end.

(** A record that does not come from the validation of the engine. *)
Definition not_invalid_input (l : PageLogRecord) : Prop :=
  match l with
  | Logged r => category r <> InvalidInput
  | _ => True
  end.

(** Conversions for the examples: the decimal literals they use. *)
Definition sample_int_of (s : string) : option Z :=
  if String.eqb s "3" then Some 3 else if String.eqb s "0" then Some 0 else None.

(** A posted form. *)
Definition sample_form (quantity service_params : string) : gmap string string :=
  <["service_type" := "A"]> (<["material_type" := "B"]>
  (<["quantity" := quantity]> (<["service_params" := service_params]> ∅))).

Definition sample_float_of (s : string) : option float :=
  if String.eqb s "2.0" then Some f_two
  else if String.eqb s "nan" then Some S754_nan else None.

(* ===================================================================== *)
(** * Binary64 arithmetic *)
(* ===================================================================== *)

Lemma digits2_log2 (p : positive) : Zpos (digits2_pos p) = Z.log2 (Zpos p) + 1.
Proof.
  induction p as [p IH | p IH |]; simpl digits2_pos; try reflexivity.
  - rewrite Pos2Z.inj_succ, IH.
    change (Z.pos p~1) with (2 * Z.pos p + 1).
    rewrite Z.log2_succ_double by lia. lia.
  - rewrite Pos2Z.inj_succ, IH.
    change (Z.pos p~0) with (2 * Z.pos p).
    rewrite Z.log2_double by lia. lia.
Qed.

Lemma Zdigits2_log2 (m : Z) : 0 < m -> Zdigits2 m = Z.log2 m + 1.
Proof. destruct m; try lia. intros _. apply digits2_log2. Qed.

Lemma Zdigits2_bounds (m : Z) :
  0 < m -> 2 ^ (Zdigits2 m - 1) <= m < 2 ^ Zdigits2 m.
Proof.
  intros Hm. rewrite Zdigits2_log2 by done.
  replace (Z.log2 m + 1 - 1) with (Z.log2 m) by lia.
  replace (Z.log2 m + 1) with (Z.succ (Z.log2 m)) by lia.
  by apply Z.log2_spec.
Qed.

Lemma Zdigits2_unique (m d : Z) :
  0 < d -> 2 ^ (d - 1) <= m < 2 ^ d -> Zdigits2 m = d.
Proof.
  intros Hd [H1 H2].
  assert (0 < m) by (pose proof (Z.pow_pos_nonneg 2 (d - 1)); lia).
  rewrite Zdigits2_log2 by done.
  rewrite (Z.log2_unique m (d - 1)); [lia | lia |].
  replace (Z.succ (d - 1)) with d by lia. lia.
Qed.

Lemma Zdigits2_nonneg (m : Z) : 0 <= Zdigits2 m.
Proof. by destruct m. Qed.

Lemma Zdigits2_pos (m : Z) : 0 < m -> 0 < Zdigits2 m.
Proof. by destruct m. Qed.

(** ** Shifting right with round and sticky bits *)

Lemma iter_pos_nat {A} (f : A -> A) (p : positive) (x : A) :
  iter_pos f p x = Nat.iter (Pos.to_nat p) f x.
Proof.
  revert x. induction p as [p IH | p IH |]; intros x; simpl iter_pos.
  - rewrite !IH, Pos2Nat.inj_xI.
    replace (S (2 * Pos.to_nat p)) with (Pos.to_nat p + (Pos.to_nat p + 1))%nat by lia.
    rewrite !Nat.iter_add. simpl. done.
  - rewrite !IH, Pos2Nat.inj_xO.
    replace (2 * Pos.to_nat p)%nat with (Pos.to_nat p + Pos.to_nat p)%nat by lia.
    by rewrite Nat.iter_add.
  - done.
Qed.

Lemma shr_1_m (mrs : shr_record) : 0 <= shr_m mrs -> shr_m (shr_1 mrs) = shr_m mrs / 2.
Proof.
  destruct mrs as [m r s]. cbn [shr_m]. intros Hm.
  destruct m as [| [p | p |] |]; cbn [shr_1 shr_m]; try done.
  - apply Z.div_unique with 1; lia.
  - apply Z.div_unique with 0; lia.
Qed.

Lemma shr_1_r (mrs : shr_record) : 0 <= shr_m mrs -> shr_r (shr_1 mrs) = Z.odd (shr_m mrs).
Proof.
  destruct mrs as [m r s]. simpl. intros Hm.
  destruct m as [| [p | p |] |]; simpl; try done. 
Qed.

Lemma shr_1_s (mrs : shr_record) : shr_s (shr_1 mrs) = shr_r mrs || shr_s mrs.
Proof. destruct mrs as [m r s]. simpl. by destruct m as [| [p | p |] | [p | p |]]. Qed.

Lemma shr_iter_m (n : nat) (mrs : shr_record) :
  0 <= shr_m mrs ->
  shr_m (Nat.iter n shr_1 mrs) = shr_m mrs / 2 ^ Z.of_nat n.
Proof.
  intros Hm. induction n as [| n IH].
  - simpl. by rewrite Z.div_1_r.
  - rewrite Nat2Z.inj_succ, Z.pow_succ_r by lia. simpl Nat.iter.
    rewrite shr_1_m; rewrite IH.
    + rewrite Z.div_div by lia. f_equal. lia.
    + apply Z.div_pos; lia.
Qed.

Lemma mod2_odd (a : Z) : a mod 2 = if Z.odd a then 1 else 0.
Proof. rewrite <- Z.bit0_odd, <- Z.bit0_mod. by destruct (Z.testbit a 0). Qed.

Lemma shr_iter_sticky (n : nat) (M : Z) :
  0 <= M ->
  let st := Nat.iter n shr_1 (Build_shr_record M false false) in
  shr_r st || shr_s st = negb (M mod 2 ^ Z.of_nat n =? 0).
Proof.
  intros HM. induction n as [| n IH]; cbn zeta in *.
  - simpl. by rewrite Z.mod_1_r.
  - simpl Nat.iter. rewrite shr_1_s, IH.
    rewrite shr_1_r by (rewrite shr_iter_m; [apply Z.div_pos|]; simpl; lia).
    rewrite shr_iter_m by done. cbn [shr_m].
    rewrite Nat2Z.inj_succ, Z.pow_succ_r by lia.
    rewrite (Z.mul_comm 2), Z.rem_mul_r by lia.
    assert (Hp : 0 < 2 ^ Z.of_nat n) by lia.
    pose proof (Z.mod_pos_bound M _ Hp) as Hr.
    rewrite mod2_odd.
    destruct (Z.odd (M / 2 ^ Z.of_nat n)); simpl.
    + symmetry. apply negb_true_iff, Z.eqb_neq. lia.
    + f_equal. f_equal. lia.
Qed.

Lemma shr_iter_exact (n : nat) (M : Z) :
  0 <= M ->
  let st := Nat.iter n shr_1 (Build_shr_record M false false) in
  round_nearest_even (shr_m st) (loc_of_shr_record st) = div_half_even M (2 ^ Z.of_nat n).
Proof.
  intros HM. destruct n as [| n]; cbn zeta.
  - simpl. unfold div_half_even. rewrite Z.mod_1_r, Z.div_1_r. done.
  - simpl Nat.iter.
    pose proof (shr_iter_sticky n M HM) as Hs. cbn zeta in Hs.
    pose proof (shr_iter_m n (Build_shr_record M false false) HM) as Hm. cbn [shr_m] in Hm.
    set (st := Nat.iter n shr_1 _) in *.
    assert (Hst : 0 <= shr_m st) by (rewrite Hm; apply Z.div_pos; lia).
    pose proof (shr_1_m st Hst) as H1. pose proof (shr_1_r st Hst) as H2.
    pose proof (shr_1_s st) as H3.
    destruct (shr_1 st) as [m' r' s']. cbn [shr_m shr_r shr_s] in *.
    subst m' r' s'. rewrite Hs, Hm.
    unfold div_half_even.
    rewrite Nat2Z.inj_succ, Z.pow_succ_r by lia.
    rewrite (Z.mul_comm 2 (2 ^ _)), Z.rem_mul_r by lia.
    rewrite <- Z.div_div by lia.
    assert (Hp : 0 < 2 ^ Z.of_nat n) by lia.
    pose proof (Z.mod_pos_bound M _ Hp) as Hr.
    rewrite mod2_odd.
    destruct (Z.odd (M / 2 ^ Z.of_nat n)).
    + destruct (M mod 2 ^ Z.of_nat n =? 0) eqn:E0; simpl.
      * apply Z.eqb_eq in E0. rewrite E0.
        replace (2 * (0 + 2 ^ Z.of_nat n * 1) ?= 2 ^ Z.of_nat n * 2) with Eq; [done|].
        symmetry. apply Z.compare_eq_iff. lia.
      * apply Z.eqb_neq in E0.
        replace (2 * (M mod 2 ^ Z.of_nat n + 2 ^ Z.of_nat n * 1) ?= 2 ^ Z.of_nat n * 2) with Gt; [done|].
        symmetry. apply Z.compare_gt_iff. lia.
    + replace (2 * (M mod 2 ^ Z.of_nat n + 2 ^ Z.of_nat n * 0) ?= 2 ^ Z.of_nat n * 2) with Lt.
      * by destruct (negb _).
      * symmetry. apply Z.compare_lt_iff. lia.
Qed.

(** ** The shape of a rounded result *)

Lemma fexp_eq (x : Z) : fexp prec emax x = Z.max (x - 53) (-1074).
Proof. reflexivity. Qed.

Lemma cexp_eq (m e : Z) : cexp m e = Z.max (Zdigits2 m + e - 53) (-1074).
Proof. reflexivity. Qed.

Lemma shr_record_of_loc_m (m : Z) (l : location) : shr_m (shr_record_of_loc m l) = m.
Proof. by destruct l as [| []]. Qed.

Lemma shr_m_nonneg (n : Z) (mrs : shr_record) (e : Z) :
  0 <= shr_m mrs ->
  shr_m (fst (shr mrs e n)) = shr_m mrs / 2 ^ Z.max n 0 /\ snd (shr mrs e n) = e + Z.max n 0.
Proof.
  intros Hm. destruct n as [| p | p]; simpl.
  - rewrite Z.div_1_r. split; [done | lia].
  - rewrite iter_pos_nat, shr_iter_m by done. rewrite positive_nat_Z.
    split; [|lia]. f_equal.
  - rewrite Z.div_1_r. split; [done | lia].
Qed.

Lemma round_nearest_even_range (m : Z) (l : location) :
  m <= round_nearest_even m l <= m + 1.
Proof. destruct l as [| []]; simpl; try lia. destruct (Z.even m); lia. Qed.

Lemma pow2_pos (n : Z) : 0 <= n -> 0 < 2 ^ n.
Proof. intros. by apply Z.pow_pos_nonneg. Qed.

Lemma div_pow2_lt (m d n : Z) :
  0 <= m < 2 ^ d -> 0 <= n -> 0 <= d -> m / 2 ^ n < 2 ^ Z.max (d - n) 0.
Proof.
  intros [Hm Hd] Hn Hd0.
  pose proof (pow2_pos n Hn) as Hp.
  apply Z.div_lt_upper_bound; [done|].
  destruct (Z.le_gt_cases n d) as [Hle | Hgt].
  - rewrite Z.max_l by lia. rewrite <- Z.pow_add_r by lia.
    by replace (n + (d - n)) with d by lia.
  - rewrite Z.max_r by lia. rewrite Z.pow_0_r, Z.mul_1_r.
    eapply Z.lt_le_trans; [done|]. apply Z.pow_le_mono_r; lia.
Qed.

Lemma div_pow2_ge (m d n : Z) :
  2 ^ d <= m -> 0 <= n <= d -> 2 ^ (d - n) <= m / 2 ^ n.
Proof.
  intros Hm Hn.
  pose proof (pow2_pos n ltac:(lia)) as Hp.
  apply Z.div_le_lower_bound; [done|].
  rewrite <- Z.pow_add_r by lia. by replace (n + (d - n)) with d by lia.
Qed.

Lemma binary_round_aux_spec (s : bool) (m e : Z) (l : location) :
  0 <= m -> e <= cexp m e ->
  exists m2,
    binary_round_aux prec emax s m e l = finish s (carry m2 (cexp m e)) /\
    m / 2 ^ (cexp m e - e) <= m2 <= m / 2 ^ (cexp m e - e) + 1 /\
    m2 <= 2 ^ 53 /\
    (-1074 < cexp m e -> 2 ^ 52 <= m2) /\
    (l = loc_Exact -> m2 = div_half_even m (2 ^ (cexp m e - e))).
Proof.
  intros Hm He. unfold binary_round_aux.
  unfold shr_fexp at 1. fold (cexp m e).
  pose proof (shr_m_nonneg (cexp m e - e) (shr_record_of_loc m l) e) as Hshr.
  rewrite shr_record_of_loc_m in Hshr. specialize (Hshr Hm).
  rewrite Z.max_l in Hshr by lia.
  destruct (shr (shr_record_of_loc m l) e (cexp m e - e)) as [mrs' e'] eqn:Eshr.
  cbn [fst snd] in Hshr. destruct Hshr as [Hm1 He'].
  replace (e + (cexp m e - e)) with (cexp m e) in He' by lia. subst e'.
  set (k := cexp m e) in *.
  set (m2 := round_nearest_even (shr_m mrs') (loc_of_shr_record mrs')).
  pose proof (round_nearest_even_range (shr_m mrs') (loc_of_shr_record mrs')) as Hr.
  fold m2 in Hr. rewrite Hm1 in Hr.
  assert (Hm1pos : 0 <= m / 2 ^ (k - e)) by (apply Z.div_pos; [done | apply pow2_pos; lia]).
  assert (Hk : -1074 <= k) by (unfold k; rewrite cexp_eq; lia).
  assert (Hub : m / 2 ^ (k - e) < 2 ^ 53).
  { destruct (Z.eq_dec m 0) as [-> | Hne].
    - rewrite Z.div_0_l; [done|]. pose proof (pow2_pos (k - e)); lia.
    - pose proof (Zdigits2_bounds m ltac:(lia)) as Hd.
      pose proof (Zdigits2_pos m ltac:(lia)) as Hdp.
      eapply Z.lt_le_trans; [apply (div_pow2_lt m (Zdigits2 m)); lia|].
      apply Z.pow_le_mono_r; [lia|]. unfold k. rewrite cexp_eq. lia. }
  assert (Hlb : -1074 < k -> 2 ^ 52 <= m / 2 ^ (k - e)).
  { intros Hgt. assert (Hkd : k = Zdigits2 m + e - 53) by (unfold k in *; rewrite cexp_eq in *; lia).
    assert (0 < m).
    { destruct (Z.eq_dec m 0) as [-> | Hne]; [|lia]. simpl in Hkd. lia. }
    pose proof (Zdigits2_bounds m ltac:(lia)) as Hd.
    replace 52 with (Zdigits2 m - 1 - (k - e)) by lia.
    apply div_pow2_ge; lia. }
  exists m2. split; [| repeat split; try lia].
  - (* the second normalisation *)
    unfold shr_fexp. fold (cexp m2 k).
    pose proof (shr_m_nonneg (cexp m2 k - k) (shr_record_of_loc m2 loc_Exact) k) as Hshr2.
    rewrite shr_record_of_loc_m in Hshr2. specialize (Hshr2 ltac:(lia)).
    destruct (shr (shr_record_of_loc m2 loc_Exact) k (cexp m2 k - k)) as [mrs'' e''] eqn:Eshr2.
    cbn [fst snd] in Hshr2. destruct Hshr2 as [Hm3 He3].
    unfold finish, carry. rewrite Hm3, He3.
    destruct (Z.eqb_spec m2 (2 ^ 53)) as [E | E].
    + rewrite E. cbn [fst snd].
      replace (cexp (2 ^ 53) k) with (k + 1) by (rewrite cexp_eq; simpl Zdigits2; lia).
      replace (k + 1 - k) with 1 by lia. simpl Z.max.
      change (2 ^ 53 / 2 ^ 1) with (2 ^ 52). done.
    + cbn [fst snd].
      assert (Hc : cexp m2 k <= k).
      { rewrite cexp_eq. destruct (Z.eq_dec m2 0) as [-> | Hne]; [simpl; lia|].
        assert (Zdigits2 m2 <= 53); [|lia].
        destruct (Z.le_gt_cases (Zdigits2 m2) 53) as [|Hgt]; [done|].
        pose proof (Zdigits2_bounds m2 ltac:(lia)) as Hd.
        assert (2 ^ 53 <= 2 ^ (Zdigits2 m2 - 1)) by (apply Z.pow_le_mono_r; lia). lia. }
      rewrite Z.max_r by lia. rewrite Z.div_1_r. by replace (k + 0) with k by lia.
  - intros ->. unfold m2.
    unfold shr in Eshr. simpl shr_record_of_loc in Eshr.
    destruct (k - e) as [| p | p] eqn:Ek; try lia.
    + injection Eshr as <- _. simpl. unfold div_half_even.
      by rewrite Z.mod_1_r, Z.div_1_r.
    + injection Eshr as <- _. rewrite iter_pos_nat.
      rewrite shr_iter_exact by done. by rewrite positive_nat_Z.
Qed.

(** ** Rounding to nearest, ties to even, on integers *)

Lemma div_half_even_range (n d : Z) : n / d <= div_half_even n d <= n / d + 1.
Proof.
  unfold div_half_even. destruct (2 * (n mod d) ?= d); [|lia..].
  destruct (Z.even (n / d)); lia.
Qed.

Lemma div_half_even_scale (n d c : Z) :
  0 < d -> 0 < c -> div_half_even (n * c) (d * c) = div_half_even n d.
Proof.
  intros Hd Hc. unfold div_half_even.
  rewrite Z.div_mul_cancel_r by lia.
  rewrite Z.mul_mod_distr_r by lia.
  replace (2 * (n mod d * c) ?= d * c) with (2 * (n mod d) ?= d); [done|].
  destruct (Z.compare_spec (2 * (n mod d)) d) as [E | E | E]; symmetry.
  - apply Z.compare_eq_iff. nia.
  - apply Z.compare_lt_iff. nia.
  - apply Z.compare_gt_iff. nia.
Qed.

Lemma div_half_even_mono (n1 n2 d : Z) :
  0 < d -> n1 <= n2 -> div_half_even n1 d <= div_half_even n2 d.
Proof.
  intros Hd Hn.
  pose proof (Z.div_le_mono n1 n2 d Hd Hn) as Hq.
  destruct (Z.eq_dec (n1 / d) (n2 / d)) as [E | E].
  - pose proof (Z.div_mod n1 d ltac:(lia)) as H1.
    pose proof (Z.div_mod n2 d ltac:(lia)) as H2.
    assert (Hr : n1 mod d <= n2 mod d) by (rewrite E in H1; lia).
    unfold div_half_even. rewrite E.
    destruct (Z.compare_spec (2 * (n1 mod d)) d), (Z.compare_spec (2 * (n2 mod d)) d);
      try lia; destruct (Z.even (n2 / d)); lia.
  - pose proof (div_half_even_range n1 d). pose proof (div_half_even_range n2 d). lia.
Qed.

Lemma div_half_even_exact (n : Z) : div_half_even n 1 = n.
Proof. unfold div_half_even. by rewrite Z.mod_1_r, Z.div_1_r. Qed.

(** ** Comparison of dyadic numbers [m * 2^e] *)

Lemma dle_at (E m1 e1 m2 e2 : Z) :
  E <= e1 -> E <= e2 ->
  dle m1 e1 m2 e2 <-> m1 * 2 ^ (e1 - E) <= m2 * 2 ^ (e2 - E).
Proof.
  intros H1 H2. unfold dle. set (mn := Z.min e1 e2).
  assert (Hmn : E <= mn) by lia.
  replace (e1 - E) with ((e1 - mn) + (mn - E)) by lia.
  replace (e2 - E) with ((e2 - mn) + (mn - E)) by lia.
  rewrite !Z.pow_add_r by lia.
  pose proof (pow2_pos (mn - E) ltac:(lia)).
  rewrite !Z.mul_assoc. rewrite <- Z.mul_le_mono_pos_r by done. done.
Qed.

Lemma dle_refl (m e : Z) : dle m e m e.
Proof. unfold dle. lia. Qed.

Lemma dle_trans (m1 e1 m2 e2 m3 e3 : Z) :
  dle m1 e1 m2 e2 -> dle m2 e2 m3 e3 -> dle m1 e1 m3 e3.
Proof.
  set (E := Z.min e1 (Z.min e2 e3)).
  rewrite (dle_at E m1 e1 m2 e2), (dle_at E m2 e2 m3 e3), (dle_at E m1 e1 m3 e3) by lia.
  lia.
Qed.

(** The magnitude [digits m + e] is monotone in the value. *)
Lemma dle_magnitude (m1 e1 m2 e2 : Z) :
  0 < m1 -> 0 < m2 -> dle m1 e1 m2 e2 -> Zdigits2 m1 + e1 <= Zdigits2 m2 + e2.
Proof.
  intros H1 H2 Hle. set (E := Z.min e1 e2).
  rewrite (dle_at E) in Hle by lia.
  pose proof (Zdigits2_bounds m1 H1) as [Hl1 _].
  pose proof (Zdigits2_bounds m2 H2) as [_ Hu2].
  pose proof (Zdigits2_pos m1 H1). pose proof (Zdigits2_pos m2 H2).
  pose proof (pow2_pos (e1 - E) ltac:(lia)) as P1.
  pose proof (pow2_pos (e2 - E) ltac:(lia)) as P2.
  assert (Hlt : 2 ^ (Zdigits2 m1 - 1 + (e1 - E)) < 2 ^ (Zdigits2 m2 + (e2 - E))).
  { rewrite !Z.pow_add_r by lia.
    eapply Z.le_lt_trans; [apply Z.mul_le_mono_pos_r; [done | apply Hl1]|].
    eapply Z.le_lt_trans; [apply Hle|].
    apply Z.mul_lt_mono_pos_r; done. }
  apply Z.pow_lt_mono_r_iff in Hlt; lia.
Qed.

(** ** Rounding an exact dyadic number *)

Lemma carry_canon (q k : Z) :
  0 <= q <= 2 ^ 53 -> -1074 <= k -> (-1074 < k -> 2 ^ 52 <= q) ->
  canon (fst (carry q k)) (snd (carry q k)).
Proof.
  intros Hq Hk Hn. unfold carry, canon.
  destruct (Z.eqb_spec q (2 ^ 53)); cbn [fst snd]; lia.
Qed.

Lemma carry_value (q k : Z) :
  snd (carry q k) - k >= 0 /\ fst (carry q k) * 2 ^ (snd (carry q k) - k) = q.
Proof.
  unfold carry. destruct (Z.eqb_spec q (2 ^ 53)) as [-> |]; cbn [fst snd].
  - replace (k + 1 - k) with 1 by lia. split; [lia | reflexivity].
  - replace (k - k) with 0 by lia. lia.
Qed.

Lemma dle_carry (q1 k1 q2 k2 : Z) :
  dle q1 k1 q2 k2 ->
  dle (fst (carry q1 k1)) (snd (carry q1 k1)) (fst (carry q2 k2)) (snd (carry q2 k2)).
Proof.
  intros H. pose proof (carry_value q1 k1) as [G1 V1]. pose proof (carry_value q2 k2) as [G2 V2].
  destruct (carry q1 k1) as [a1 b1], (carry q2 k2) as [a2 b2]. cbn [fst snd] in *.
  subst q1 q2. set (E := Z.min k1 k2).
  rewrite (dle_at E) in H by lia. apply (dle_at E); [lia..|].
  rewrite <- !Z.mul_assoc, <- !Z.pow_add_r in H by lia.
  replace (b1 - k1 + (k1 - E)) with (b1 - E) in H by lia.
  replace (b2 - k2 + (k2 - E)) with (b2 - E) in H by lia.
  done.
Qed.

Lemma rnd_spec (s : bool) (m e : Z) :
  0 <= m -> e <= cexp m e ->
  binary_round_aux prec emax s m e loc_Exact = finish s (rnd m e) /\
  0 <= div_half_even m (2 ^ (cexp m e - e)) <= 2 ^ 53 /\
  (-1074 < cexp m e -> 2 ^ 52 <= div_half_even m (2 ^ (cexp m e - e))).
Proof.
  intros Hm He.
  destruct (binary_round_aux_spec s m e loc_Exact Hm He) as (m2 & Hr & Hrange & Hub & Hlb & Hex).
  specialize (Hex eq_refl). subst m2.
  split; [done|]. split; [|done]. split; [|done].
  assert (0 <= m / 2 ^ (cexp m e - e)); [|lia].
  apply Z.div_pos; [done | apply pow2_pos; lia].
Qed.

Lemma rnd_canon (m e : Z) :
  0 <= m -> e <= cexp m e -> canon (fst (rnd m e)) (snd (rnd m e)).
Proof.
  intros Hm He. destruct (rnd_spec false m e Hm He) as (_ & Hq & Hn).
  apply carry_canon; [done | rewrite cexp_eq; lia | done].
Qed.

Lemma rnd_mono (m1 e1 m2 e2 : Z) :
  0 < m1 -> 0 < m2 -> e1 <= cexp m1 e1 -> e2 <= cexp m2 e2 ->
  dle m1 e1 m2 e2 ->
  dle (fst (rnd m1 e1)) (snd (rnd m1 e1)) (fst (rnd m2 e2)) (snd (rnd m2 e2)).
Proof.
  intros H1 H2 He1 He2 Hle. unfold rnd. apply dle_carry.
  destruct (rnd_spec false m1 e1 ltac:(lia) He1) as (_ & Hq1 & Hn1).
  destruct (rnd_spec false m2 e2 ltac:(lia) He2) as (_ & Hq2 & Hn2).
  pose proof (dle_magnitude _ _ _ _ H1 H2 Hle) as Hmag.
  assert (Hk : cexp m1 e1 <= cexp m2 e2) by (rewrite !cexp_eq; lia).
  assert (Hk1 : -1074 <= cexp m1 e1) by (rewrite cexp_eq; lia).
  set (k1 := cexp m1 e1) in *. set (k2 := cexp m2 e2) in *.
  set (q1 := div_half_even m1 _) in *. set (q2 := div_half_even m2 _) in *.
  apply (dle_at k1); [lia..|]. replace (k1 - k1) with 0 by lia.
  rewrite Z.pow_0_r, Z.mul_1_r.
  destruct (Z.eq_dec k1 k2) as [E | E].
  - rewrite <- E. replace (k1 - k1) with 0 by lia. rewrite Z.pow_0_r, Z.mul_1_r.
    set (E0 := Z.min e1 e2).
    rewrite (dle_at E0) in Hle by lia.
    unfold q1, q2. rewrite <- E.
    pose proof (pow2_pos (e1 - E0) ltac:(lia)). pose proof (pow2_pos (e2 - E0) ltac:(lia)).
    pose proof (pow2_pos (k1 - e1) ltac:(lia)). pose proof (pow2_pos (k1 - e2) ltac:(lia)).
    rewrite <- (div_half_even_scale m1 _ (2 ^ (e1 - E0))) by done.
    rewrite <- (div_half_even_scale m2 _ (2 ^ (e2 - E0))) by done.
    rewrite <- !Z.pow_add_r by lia.
    replace (k1 - e1 + (e1 - E0)) with (k1 - E0) by lia.
    replace (k1 - e2 + (e2 - E0)) with (k1 - E0) by lia.
    apply div_half_even_mono; [apply pow2_pos; lia | done].
  - assert (2 ^ 1 <= 2 ^ (k2 - k1)) by (apply Z.pow_le_mono_r; lia).
    specialize (Hn2 ltac:(lia)). change (2 ^ 1) with 2 in *. change (2 ^ 53) with (2 ^ 52 * 2) in Hq1. nia.
Qed.

Lemma canon_compare (m e m' e' : Z) :
  canon m e -> canon m' e' -> 0 < m -> dle m e m' e' ->
  0 < m' /\ (e < e' \/ (e = e' /\ m <= m')).
Proof.
  intros (Hm & He & Hn) (Hm' & He' & Hn') Hpos Hle.
  destruct (Z.lt_trichotomy e e') as [Hlt | [-> | Hgt]].
  - split; [|by left]. specialize (Hn' ltac:(lia)). change (2 ^ 52) with 4503599627370496 in Hn'. lia.
  - unfold dle in Hle. rewrite Z.min_id, Z.sub_diag, Z.pow_0_r in Hle. lia.
  - exfalso. rewrite (dle_at e') in Hle by lia.
    rewrite Z.sub_diag, Z.pow_0_r, Z.mul_1_r in Hle.
    assert (2 ^ 1 <= 2 ^ (e - e')) by (apply Z.pow_le_mono_r; lia).
    specialize (Hn ltac:(lia)). change (2 ^ 1) with 2 in *. change (2 ^ 53) with (2 ^ 52 * 2) in Hm'. nia.
Qed.

Lemma finish_nonneg_cases (me : Z * Z) :
  0 <= fst me ->
  finish false me = S754_zero false \/
  finish false me = S754_infinity false \/
  exists p, fst me = Zpos p /\ snd me <= emax - prec /\ finish false me = S754_finite false p (snd me).
Proof.
  intros H. unfold finish. destruct (fst me) as [| p | p] eqn:E; [by left | | lia].
  destruct (Z.leb_spec (snd me) (emax - prec)); [| by (right; left)].
  right; right. by exists p.
Qed.

Lemma finish_leb (o1 o2 : Z * Z) :
  canon (fst o1) (snd o1) -> canon (fst o2) (snd o2) ->
  dle (fst o1) (snd o1) (fst o2) (snd o2) ->
  fleb (finish false o1) (finish false o2) = true.
Proof.
  intros C1 C2 Hle.
  destruct (Z.eq_dec (fst o1) 0) as [E | E].
  - unfold finish at 1. rewrite E.
    destruct (finish_nonneg_cases o2 ltac:(destruct C2; lia)) as [-> | [-> | (p & _ & _ & ->)]]; done.
  - assert (Hpos : 0 < fst o1) by (destruct C1; lia).
    destruct (canon_compare _ _ _ _ C1 C2 Hpos Hle) as [Hpos' Hlex].
    unfold finish.
    destruct (fst o1) as [| p1 |] eqn:E1; try lia.
    destruct (fst o2) as [| p2 |] eqn:E2; try lia.
    destruct (Z.leb_spec (snd o2) (emax - prec)) as [Hb2 | Hb2].
    + destruct (Z.leb_spec (snd o1) (emax - prec)) as [Hb1 | Hb1]; [|lia].
      unfold fleb, SFleb, SFcompare.
      destruct Hlex as [Hlt | [Heq Hm]].
      * apply Z.compare_lt_iff in Hlt. by rewrite Hlt.
      * rewrite Heq, Z.compare_refl. rewrite Pos.compare_cont_spec. simpl.
        destruct (Pos.compare_spec p1 p2); [done | done | lia].
    + by destruct (snd o1 <=? emax - prec).
Qed.

Lemma finish_is_double (s : bool) (o : Z * Z) :
  canon (fst o) (snd o) -> is_double (finish s o).
Proof.
  intros (Hm & He & Hn). unfold finish, is_double.
  destruct (fst o) as [| p |] eqn:E; [done | | lia].
  destruct (Z.leb_spec (snd o) (emax - prec)) as [Hb | Hb]; [|done].
  simpl. unfold bounded, canonical_mantissa. apply andb_true_iff. split; [|by apply Z.leb_le].
  apply Z.eqb_eq. rewrite fexp_eq.
  change (Z.pos (digits2_pos p)) with (Zdigits2 (Zpos p)).
  destruct (Z.eq_dec (snd o) (-1074)) as [E1 | E1].
  - assert (Zdigits2 (Z.pos p) <= 53); [|lia].
    destruct (Z.le_gt_cases (Zdigits2 (Z.pos p)) 53) as [|Hgt]; [done|].
    pose proof (Zdigits2_bounds (Z.pos p) ltac:(lia)) as Hd.
    assert (2 ^ 53 <= 2 ^ (Zdigits2 (Z.pos p) - 1)) by (apply Z.pow_le_mono_r; lia). lia.
  - rewrite (Zdigits2_unique (Z.pos p) 53); [lia | lia |]. 
    change (2 ^ (53 - 1)) with (2 ^ 52). lia.
Qed.

Lemma is_double_canon (s : bool) (p : positive) (e : Z) :
  is_double (S754_finite s p e) -> canon (Zpos p) e /\ e <= emax - prec.
Proof.
  unfold is_double. simpl. unfold bounded, canonical_mantissa.
  intros [Hc Hb]%andb_true_iff. apply Z.eqb_eq in Hc. apply Z.leb_le in Hb.
  rewrite fexp_eq in Hc. change (Z.pos (digits2_pos p)) with (Zdigits2 (Zpos p)) in Hc.
  pose proof (Zdigits2_bounds (Zpos p) ltac:(lia)) as [Hl Hu].
  pose proof (Zdigits2_pos (Zpos p) ltac:(lia)) as Hd.
  split; [|done]. unfold canon. repeat split; try lia.
  - eapply Z.lt_le_trans; [apply Hu|]. apply Z.pow_le_mono_r; lia.
  - intros Hgt. replace 52 with (Zdigits2 (Zpos p) - 1) by lia. done.
Qed.

Lemma is_double_cexp (s : bool) (p : positive) (e : Z) :
  is_double (S754_finite s p e) -> cexp (Zpos p) e = e.
Proof.
  unfold is_double. simpl. unfold bounded, canonical_mantissa.
  intros [Hc Hb]%andb_true_iff. by apply Z.eqb_eq in Hc.
Qed.

(** ** Alignment before rounding: [binary_round] *)

Lemma pos_iter_xO (m d : positive) : Zpos (Pos.iter xO m d) = Zpos m * 2 ^ Zpos d.
Proof.
  induction d as [| d IH] using Pos.peano_ind.
  - simpl. lia.
  - rewrite Pos.iter_succ, Pos2Z.inj_succ, Z.pow_succ_r by lia.
    rewrite Pos2Z.inj_xO, IH. lia.
Qed.

Lemma Zdigits2_shift (m j : Z) : 0 < m -> 0 <= j -> Zdigits2 (m * 2 ^ j) = Zdigits2 m + j.
Proof.
  intros Hm Hj. pose proof (Zdigits2_bounds m Hm) as [Hl Hu].
  pose proof (Zdigits2_pos m Hm). pose proof (pow2_pos j Hj).
  apply Zdigits2_unique; [lia|].
  replace (Zdigits2 m + j - 1) with (Zdigits2 m - 1 + j) by lia.
  rewrite !Z.pow_add_r by lia. split.
  - by apply Z.mul_le_mono_pos_r.
  - by apply Z.mul_lt_mono_pos_r.
Qed.

Lemma shl_align_spec (p : positive) (e : Z) :
  let me := shl_align p e (cexp (Zpos p) e) in
  (Zpos (fst me), snd me) = align (Zpos p) e.
Proof.
  cbn zeta. unfold shl_align, align.
  destruct (Z.ltb_spec (cexp (Z.pos p) e) e) as [Hlt | Hge].
  - destruct (cexp (Z.pos p) e - e) as [| d | d] eqn:E; try lia.
    cbn [fst snd]. rewrite pos_iter_xO. do 3 f_equal. lia.
  - destruct (cexp (Z.pos p) e - e) as [| d | d] eqn:E; try lia; done.
Qed.

Lemma align_spec (m e : Z) :
  0 < m ->
  let me := align m e in
  0 < fst me /\ snd me <= e /\ fst me = m * 2 ^ (e - snd me) /\
  snd me <= cexp (fst me) (snd me) /\ cexp (fst me) (snd me) = cexp m e.
Proof.
  intros Hm. cbn zeta. unfold align.
  destruct (Z.ltb_spec (cexp m e) e) as [Hlt | Hge]; cbn [fst snd].
  - pose proof (pow2_pos (e - cexp m e) ltac:(lia)).
    assert (Hc : cexp (m * 2 ^ (e - cexp m e)) (cexp m e) = cexp m e).
    { unfold cexp at 1. rewrite Zdigits2_shift by lia.
      replace (Zdigits2 m + (e - cexp m e) + cexp m e) with (Zdigits2 m + e) by lia.
      reflexivity. }
    rewrite Hc. repeat split; lia.
  - rewrite Z.sub_diag, Z.pow_0_r. repeat split; lia.
Qed.

Lemma dle_align (m e : Z) :
  0 < m ->
  dle m e (fst (align m e)) (snd (align m e)) /\ dle (fst (align m e)) (snd (align m e)) m e.
Proof.
  intros Hm. destruct (align_spec m e Hm) as (_ & He & Hv & _).
  rewrite !(dle_at (snd (align m e))) by lia.
  rewrite Z.sub_diag, Z.pow_0_r. lia.
Qed.

Lemma binary_round_rnd (s : bool) (p : positive) (e : Z) :
  binary_round prec emax s p e = finish s (rnd_any (Zpos p) e).
Proof.
  unfold binary_round.
  change (fexp prec emax (Z.pos (digits2_pos p) + e)) with (cexp (Zpos p) e).
  pose proof (shl_align_spec p e) as Ha. cbn zeta in Ha.
  destruct (shl_align p e (cexp (Z.pos p) e)) as [mz ez]. cbn [fst snd] in Ha.
  destruct (align_spec (Zpos p) e ltac:(lia)) as (Hpos & _ & _ & Hpre & _).
  unfold rnd_any. rewrite <- Ha in *. cbn [fst snd] in *.
  by destruct (rnd_spec s (Zpos mz) ez ltac:(lia) Hpre) as [<- _].
Qed.

Lemma rnd_any_canon (m e : Z) :
  0 < m -> canon (fst (rnd_any m e)) (snd (rnd_any m e)).
Proof.
  intros Hm. destruct (align_spec m e Hm) as (Hpos & _ & _ & Hpre & _).
  apply rnd_canon; [lia | done].
Qed.

Lemma rnd_any_mono (m1 e1 m2 e2 : Z) :
  0 < m1 -> 0 < m2 -> dle m1 e1 m2 e2 ->
  dle (fst (rnd_any m1 e1)) (snd (rnd_any m1 e1)) (fst (rnd_any m2 e2)) (snd (rnd_any m2 e2)).
Proof.
  intros H1 H2 Hle.
  destruct (align_spec m1 e1 H1) as (Hp1 & _ & _ & Hpre1 & _).
  destruct (align_spec m2 e2 H2) as (Hp2 & _ & _ & Hpre2 & _).
  apply rnd_mono; try done.
  eapply dle_trans; [apply dle_align; done|].
  eapply dle_trans; [apply Hle|]. apply dle_align; done.
Qed.

(** Rounding is monotone. *)
Lemma binary_round_mono (p1 p2 : positive) (e1 e2 : Z) :
  dle (Zpos p1) e1 (Zpos p2) e2 ->
  fleb (binary_round prec emax false p1 e1) (binary_round prec emax false p2 e2) = true.
Proof.
  intros Hle. rewrite !binary_round_rnd.
  apply finish_leb; [apply rnd_any_canon; lia .. | apply rnd_any_mono; lia || done].
Qed.

Lemma binary_round_is_double (s : bool) (p : positive) (e : Z) :
  is_double (binary_round prec emax s p e).
Proof. rewrite binary_round_rnd. apply finish_is_double, rnd_any_canon. lia. Qed.

(** Rounding leaves a double unchanged. *)
Lemma binary_round_id (s : bool) (p : positive) (e : Z) :
  is_double (S754_finite s p e) -> binary_round prec emax s p e = S754_finite s p e.
Proof.
  intros Hd. rewrite binary_round_rnd.
  pose proof (is_double_cexp s p e Hd) as Hc.
  destruct (is_double_canon s p e Hd) as [(Hm & _ & _) Hb].
  unfold rnd_any, align. rewrite Hc, Z.ltb_irrefl. cbn [fst snd].
  unfold rnd. rewrite Hc, Z.sub_diag, Z.pow_0_r, div_half_even_exact.
  unfold carry. destruct (Z.eqb_spec (Z.pos p) (2 ^ 53)) as [E | _]; [lia|].
  unfold finish. cbn [fst snd]. by apply Z.leb_le in Hb as ->.
Qed.

Lemma binary_round_aux_round (s : bool) (p : positive) (e : Z) :
  e <= cexp (Zpos p) e ->
  binary_round_aux prec emax s (Zpos p) e loc_Exact = binary_round prec emax s p e.
Proof.
  intros Hpre. rewrite binary_round_rnd.
  destruct (rnd_spec s (Zpos p) e ltac:(lia) Hpre) as [-> _].
  unfold rnd_any, align. destruct (Z.ltb_spec (cexp (Z.pos p) e) e); [lia | done].
Qed.

(** ** Division *)

Lemma Zdigits2_ge (m d : Z) : 0 <= d -> 2 ^ d <= m -> d + 1 <= Zdigits2 m.
Proof.
  intros Hd Hm. pose proof (pow2_pos d Hd).
  pose proof (Zdigits2_bounds m ltac:(lia)) as [_ Hu].
  assert (2 ^ d < 2 ^ Zdigits2 m) as Hlt by lia.
  apply Z.pow_lt_mono_r_iff in Hlt; [lia | lia | apply Zdigits2_nonneg].
Qed.

Lemma SFdiv_core_binary_pre (p1 p2 : positive) (e1 e2 : Z) :
  let '(q, e', l) := SFdiv_core_binary prec emax (Zpos p1) e1 (Zpos p2) e2 in
  0 <= q /\ e' <= cexp q e'.
Proof.
  unfold SFdiv_core_binary.
  set (d1 := Zdigits2 (Zpos p1)). set (d2 := Zdigits2 (Zpos p2)).
  set (e' := Z.min (fexp prec emax (d1 + e1 - (d2 + e2))) (e1 - e2)).
  set (s := e1 - e2 - e').
  set (m' := match s with Z0 => Zpos p1 | Zpos _ => Z.shiftl (Zpos p1) s | Zneg _ => 0 end).
  assert (Hs : 0 <= s) by (unfold s, e'; lia).
  assert (Hm' : m' = Zpos p1 * 2 ^ s).
  { unfold m'. destruct s as [| sp | sp] eqn:Es; [simpl; lia | | lia].
    rewrite Z.shiftl_mul_pow2 by lia. done. }
  pose proof (Z_div_mod m' (Zpos p2) ltac:(lia)) as Hdm.
  destruct (Z.div_eucl m' (Z.pos p2)) as [q r]. destruct Hdm as [Hq Hr].
  pose proof (pow2_pos s Hs) as Hps.
  assert (Hq0 : 0 <= q) by nia.
  split; [done|].
  rewrite cexp_eq.
  destruct (Z.le_gt_cases e' (-1074)) as [|Hgt]; [lia|].
  assert (Hf : e' <= d1 + e1 - (d2 + e2) - 53).
  { unfold e' in *. rewrite fexp_eq in *. lia. }
  assert (Hds : 53 <= d1 + s - d2) by (unfold s; lia).
  pose proof (Zdigits2_bounds (Zpos p1) ltac:(lia)) as [Hl1 _].
  pose proof (Zdigits2_bounds (Zpos p2) ltac:(lia)) as [_ Hu2].
  fold d1 in Hl1. fold d2 in Hu2.
  pose proof (Zdigits2_pos (Zpos p1) ltac:(lia)) as Hd1. fold d1 in Hd1.
  pose proof (Zdigits2_pos (Zpos p2) ltac:(lia)) as Hd2. fold d2 in Hd2.
  assert (Hqlb : 2 ^ (d1 + s - d2 - 1) <= q).
  { assert (H1 : 2 ^ (d1 - 1 + s) <= m').
    { rewrite Hm', Z.pow_add_r by lia. by apply Z.mul_le_mono_pos_r. }
    assert (H2 : 2 ^ (d1 - 1 + s) = 2 ^ (d1 + s - d2 - 1) * 2 ^ d2).
    { rewrite <- Z.pow_add_r by lia. f_equal. lia. }
    pose proof (pow2_pos (d1 + s - d2 - 1) ltac:(lia)).
    destruct (Z.le_gt_cases (2 ^ (d1 + s - d2 - 1)) q) as [|Hlt]; [done|]. nia. }
  pose proof (Zdigits2_ge q (d1 + s - d2 - 1) ltac:(lia) Hqlb). lia.
Qed.

Lemma finish_nonneg (o : Z * Z) : canon (fst o) (snd o) -> nonneg (finish false o).
Proof.
  intros C. pose proof (finish_is_double false o C) as Hd.
  destruct (finish_nonneg_cases o ltac:(destruct C; lia)) as [-> | [-> | (p & _ & _ & E)]]; try done.
  rewrite E in *. done.
Qed.

Lemma binary_round_aux_nonneg (m e : Z) (l : location) :
  0 <= m -> e <= cexp m e -> nonneg (binary_round_aux prec emax false m e l).
Proof.
  intros Hm He.
  destruct (binary_round_aux_spec false m e l Hm He) as (m2 & -> & Hr & Hub & Hlb & _).
  apply finish_nonneg, carry_canon; [|rewrite cexp_eq; lia | done].
  assert (0 <= m / 2 ^ (cexp m e - e)); [|lia].
  apply Z.div_pos; [done | apply pow2_pos; lia].
Qed.

Lemma fdiv_nonneg (p1 p2 : positive) (e1 e2 : Z) :
  nonneg (fdiv (S754_finite false p1 e1) (S754_finite false p2 e2)).
Proof.
  unfold fdiv, SFdiv. pose proof (SFdiv_core_binary_pre p1 p2 e1 e2) as H.
  destruct (SFdiv_core_binary prec emax (Z.pos p1) e1 (Z.pos p2) e2) as [[q e'] l].
  destruct H as [Hq He]. by apply binary_round_aux_nonneg.
Qed.

Lemma binary_round_nonneg (p : positive) (e : Z) :
  nonneg (binary_round prec emax false p e).
Proof. rewrite binary_round_rnd. apply finish_nonneg, rnd_any_canon. lia. Qed.

Lemma float_of_decimal_nonneg (d : Decimal) : 0 <= unscaled d -> nonneg (float_of_decimal d).
Proof.
  intros H. unfold float_of_decimal. destruct (unscaled d); [done | apply fdiv_nonneg | lia].
Qed.

Lemma fadd_nonneg (x y : float) : nonneg x -> nonneg y -> nonneg (fadd x y).
Proof.
  intros Hx Hy.
  destruct x as [[] | [] | | [] px ex], y as [[] | [] | | [] py ey]; try done.
  unfold fadd, SFadd. cbn [cond_Zopp].
  rewrite <- Pos2Z.inj_add. cbn [binary_normalize]. apply binary_round_nonneg.
Qed.


Lemma nonneg_fleb_zero (x : float) : nonneg x -> fleb fzero x = true.
Proof. by destruct x as [[] | [] | | [] px ex]. Qed.

(** ** Order on the positive doubles *)

Lemma fleb_dle (p1 p2 : positive) (e1 e2 : Z) :
  is_double (S754_finite false p1 e1) -> is_double (S754_finite false p2 e2) ->
  fleb (S754_finite false p1 e1) (S754_finite false p2 e2) = true ->
  dle (Zpos p1) e1 (Zpos p2) e2.
Proof.
  intros [C1 _]%is_double_canon [C2 _]%is_double_canon.
  destruct C1 as (Hm1 & He1 & Hn1), C2 as (Hm2 & He2 & Hn2).
  unfold fleb, SFleb, SFcompare.
  destruct (Z.compare_spec e1 e2) as [-> | Hlt | Hgt]; [| | done].
  - rewrite Pos.compare_cont_spec. simpl.
    destruct (Pos.compare_spec p1 p2); try done; intros _; unfold dle;
      rewrite Z.min_id, Z.sub_diag, Z.pow_0_r; lia.
  - intros _. rewrite (dle_at e1) by lia. rewrite Z.sub_diag, Z.pow_0_r, Z.mul_1_r.
    assert (2 ^ 1 <= 2 ^ (e2 - e1)) by (apply Z.pow_le_mono_r; lia).
    specialize (Hn2 ltac:(lia)). change (2 ^ 1) with 2 in *.
    change (2 ^ 53) with (2 ^ 52 * 2) in Hm1. nia.
Qed.

Lemma dle_fleb (p1 p2 : positive) (e1 e2 : Z) :
  is_double (S754_finite false p1 e1) -> is_double (S754_finite false p2 e2) ->
  dle (Zpos p1) e1 (Zpos p2) e2 ->
  fleb (S754_finite false p1 e1) (S754_finite false p2 e2) = true.
Proof.
  intros D1 D2 Hle.
  rewrite <- (binary_round_id false p1 e1 D1), <- (binary_round_id false p2 e2 D2).
  by apply binary_round_mono.
Qed.

Lemma dle_mul_r (m1 e1 m2 e2 c ec : Z) :
  0 <= c -> dle m1 e1 m2 e2 -> dle (m1 * c) (e1 + ec) (m2 * c) (e2 + ec).
Proof.
  intros Hc Hle. set (E := Z.min e1 e2).
  rewrite (dle_at E) in Hle by lia. rewrite (dle_at (E + ec)) by lia.
  replace (e1 + ec - (E + ec)) with (e1 - E) by lia.
  replace (e2 + ec - (E + ec)) with (e2 - E) by lia. nia.
Qed.

Lemma dle_one (p : positive) (e : Z) :
  is_double (S754_finite false p e) ->
  fleb fone (S754_finite false p e) = true -> dle 1 0 (Zpos p) e.
Proof.
  intros D H. apply fleb_dle in H; [| done | done].
  eapply dle_trans; [|apply H]. rewrite (dle_at (-52)) by lia. simpl. lia.
Qed.

Lemma dle_mul_ge (m e c ec : Z) :
  0 <= m -> dle 1 0 c ec -> dle m e (m * c) (e + ec).
Proof.
  intros Hm Hle. set (E0 := Z.min 0 ec).
  rewrite (dle_at E0) in Hle by lia. rewrite (dle_at (e + E0)) by lia.
  replace (e - (e + E0)) with (0 - E0) by lia.
  replace (e + ec - (e + E0)) with (ec - E0) by lia. nia.
Qed.

(** ** Multiplication *)

Lemma fmul_round (s1 s2 : bool) (p1 p2 : positive) (e1 e2 : Z) :
  is_double (S754_finite s1 p1 e1) -> is_double (S754_finite s2 p2 e2) ->
  fmul (S754_finite s1 p1 e1) (S754_finite s2 p2 e2)
  = binary_round prec emax (xorb s1 s2) (p1 * p2) (e1 + e2).
Proof.
  intros D1 D2. unfold fmul, SFmul. apply binary_round_aux_round.
  destruct (is_double_canon _ _ _ D1) as [(Hm1 & He1 & Hn1) _].
  destruct (is_double_canon _ _ _ D2) as [(Hm2 & He2 & Hn2) _].
  rewrite cexp_eq.
  destruct (Z.eq_dec e1 (-1074)) as [E1 | E1]; destruct (Z.eq_dec e2 (-1074)) as [E2 | E2];
    try lia.
  - specialize (Hn2 ltac:(lia)).
    pose proof (Zdigits2_ge (Z.pos (p1 * p2)) 52 ltac:(lia) ltac:(nia)). lia.
  - specialize (Hn1 ltac:(lia)).
    pose proof (Zdigits2_ge (Z.pos (p1 * p2)) 52 ltac:(lia) ltac:(nia)). lia.
  - specialize (Hn1 ltac:(lia)).
    pose proof (Zdigits2_ge (Z.pos (p1 * p2)) 52 ltac:(lia) ltac:(nia)). lia.
Qed.

Lemma fmul_comm (x y : float) : fmul x y = fmul y x.
Proof.
  destruct x as [sx | sx | | sx px ex], y as [sy | sy | | sy py ey]; simpl;
    rewrite ?(xorb_comm sx sy); try done.
  by rewrite Pos.mul_comm, Z.add_comm.
Qed.

Lemma fmul_nonneg (x y : float) :
  nonneg x -> nonneg y -> is_finite x = true -> is_finite y = true -> nonneg (fmul x y).
Proof.
  intros Hx Hy Fx Fy.
  destruct x as [[] | [] | | [] px ex], y as [[] | [] | | [] py ey]; try done.
  rewrite fmul_round by done. apply binary_round_nonneg.
Qed.

Lemma fmul_finite (x y : float) :
  is_finite (fmul x y) = true -> is_finite x = true /\ is_finite y = true.
Proof. by destruct x as [sx | sx | | sx px ex], y as [sy | sy | | sy py ey]. Qed.

Lemma fmul_mono_l (x1 x2 y : float) :
  nonneg x1 -> nonneg x2 -> nonneg y ->
  is_finite x1 = true -> is_finite x2 = true -> is_finite y = true ->
  fleb x1 x2 = true -> fleb (fmul x1 y) (fmul x2 y) = true.
Proof.
  intros H1 H2 Hy F1 F2 Fy Hle.
  pose proof (fmul_nonneg x2 y H2 Hy F2 Fy) as Hn2.
  destruct x1 as [[] | [] | | [] p1 e1]; try done.
  - destruct y as [[] | [] | | [] py ey]; try done; by apply nonneg_fleb_zero.
  - destruct x2 as [[] | [] | | [] p2 e2]; try done.
    destruct y as [[] | [] | | [] py ey]; try done.
    rewrite !fmul_round by done. apply binary_round_mono.
    rewrite !Pos2Z.inj_mul. apply dle_mul_r; [lia|]. by apply fleb_dle.
Qed.

Lemma fmul_mono_r (x y1 y2 : float) :
  nonneg x -> nonneg y1 -> nonneg y2 ->
  is_finite x = true -> is_finite y1 = true -> is_finite y2 = true ->
  fleb y1 y2 = true -> fleb (fmul x y1) (fmul x y2) = true.
Proof. intros. rewrite (fmul_comm x y1), (fmul_comm x y2). by apply fmul_mono_l. Qed.

(** Multiplying by a factor that is at least one does not decrease. *)
Lemma fmul_ge (t u : float) :
  nonneg t -> nonneg u -> is_finite t = true -> is_finite u = true ->
  fleb fone u = true -> fleb t (fmul t u) = true.
Proof.
  intros Ht Hu Ft Fu Hle.
  destruct u as [[] | [] | | [] pu eu]; try done.
  destruct t as [[] | [] | | [] pt et]; try done.
  rewrite fmul_round by done.
  rewrite <- (binary_round_id false pt et Ht) at 1.
  apply binary_round_mono. rewrite Pos2Z.inj_mul.
  apply dle_mul_ge; [lia|]. by apply dle_one.
Qed.

(** ** Addition to one *)

Lemma shl_align_value (p : positive) (e e' : Z) :
  e' <= e -> Zpos (fst (shl_align p e e')) = Zpos p * 2 ^ (e - e').
Proof.
  intros H. unfold shl_align.
  destruct (e' - e) as [| d | d] eqn:E; cbn [fst]; try lia.
  - replace (e - e') with 0 by lia. lia.
  - rewrite pos_iter_xO. f_equal. f_equal. lia.
Qed.

Lemma fone_is_double : is_double fone.
Proof. reflexivity. Qed.

Lemma fadd_one_ge (o : float) :
  nonneg o -> fleb fone (fadd fone o) = true.
Proof.
  intros Ho. destruct o as [[] | [] | | [] po eo]; try done.
  unfold fadd, fone, SFadd. cbn [cond_Zopp].
  rewrite <- Pos2Z.inj_add. cbn [binary_normalize].
  rewrite <- (binary_round_id false 4503599627370496 (-52) fone_is_double) at 1.
  apply binary_round_mono.
  set (ez := Z.min (-52) eo).
  pose proof (shl_align_value 4503599627370496 (-52) ez) as H1.
  rewrite (dle_at ez) by lia. rewrite Z.sub_diag, Z.pow_0_r, Z.mul_1_r.
  rewrite Pos2Z.inj_add. rewrite H1 by lia. lia.
Qed.

(** ** Conversion of integers *)

Lemma fleb_finite_l (x y : float) :
  nonneg x -> fleb x y = true -> is_finite y = true -> is_finite x = true.
Proof. by destruct x as [[] | [] | | [] px ex], y as [[] | [] | | [] py ey]. Qed.

Lemma int_to_float_pos (q : Z) (f : float) :
  0 < q -> int_to_float q = inr f ->
  f = binary_round prec emax false (Z.to_pos q) 0 /\
  nonneg f /\ is_finite f = true /\ fleb fone f = true.
Proof.
  intros Hq. unfold int_to_float. destruct q as [| p | p]; try lia.
  cbn [binary_normalize Z.to_pos].
  pose proof (binary_round_nonneg p 0) as Hn.
  assert (Hone : fleb fone (binary_round prec emax false p 0) = true).
  { unfold fone. rewrite <- (binary_round_id false _ _ fone_is_double).
    apply binary_round_mono. rewrite (dle_at (-52)) by lia. simpl. lia. }
  destruct (binary_round prec emax false p 0) as [[] | [] | | [] px ex]; try done;
    intros [= <-]; done.
Qed.

Lemma int_to_float_mono (q1 q2 : Z) (f2 : float) :
  0 < q1 <= q2 -> int_to_float q2 = inr f2 ->
  exists f1, int_to_float q1 = inr f1 /\ fleb f1 f2 = true.
Proof.
  intros Hq H2. destruct (int_to_float_pos q2 f2 ltac:(lia) H2) as (E2 & N2 & F2 & _).
  unfold int_to_float. destruct q1 as [| p1 | p1]; try lia.
  destruct q2 as [| p2 | p2]; try lia. cbn [binary_normalize Z.to_pos] in *.
  assert (Hle : fleb (binary_round prec emax false p1 0) f2 = true).
  { rewrite E2. apply binary_round_mono. unfold dle. rewrite Z.min_id, Z.sub_diag, Z.pow_0_r. lia. }
  pose proof (binary_round_nonneg p1 0) as N1.
  pose proof (fleb_finite_l _ _ N1 Hle F2) as F1.
  destruct (binary_round prec emax false p1 0) as [[] | [] | | [] px ex]; try done; eauto.
Qed.

(** ** Ceiling *)

Lemma py_ceil_spec (p : positive) (e : Z) :
  exists n, py_ceil (S754_finite false p e) = inr n /\
            forall z, n <= z <-> dle (Zpos p) e z 0.
Proof.
  unfold py_ceil. cbn [cond_Zopp]. eexists. split; [reflexivity|].
  intros z. destruct e as [| k | k].
  - unfold dle. rewrite Z.min_id, Z.sub_diag, Z.pow_0_r. lia.
  - rewrite (dle_at 0) by lia. rewrite !Z.sub_0_r, Z.pow_0_r. lia.
  - rewrite (dle_at (Z.neg k)) by lia. rewrite Z.sub_diag, Z.pow_0_r, Z.mul_1_r.
    replace (0 - Z.neg k) with (Z.pos k) by lia.
    pose proof (pow2_pos (Z.pos k) ltac:(lia)) as Hp.
    split; intros H.
    + assert (- z <= - Z.pos p / 2 ^ Z.pos k) by lia.
      pose proof (Z.mul_div_le (- Z.pos p) (2 ^ Z.pos k) Hp). nia.
    + assert (- z <= - Z.pos p / 2 ^ Z.pos k); [|lia].
      apply Z.div_le_lower_bound; [done | lia].
Qed.

Lemma py_ceil_nonneg (x : float) :
  nonneg x -> is_finite x = true ->
  exists n, py_ceil x = inr n /\ 0 <= n /\ (n = 0 -> x = fzero).
Proof.
  intros Hx Fx. destruct x as [[] | [] | | [] p e]; try done.
  - exists 0. done.
  - destruct (py_ceil_spec p e) as (n & Hn & Hz). exists n. split; [done|].
    assert (~ n <= 0); [|lia].
    rewrite Hz. set (E := Z.min e 0). rewrite (dle_at E) by lia.
    pose proof (pow2_pos (e - E) ltac:(lia)). nia.
Qed.

Lemma py_ceil_mono (x y : float) (a b : Z) :
  nonneg x -> nonneg y -> fleb x y = true ->
  py_ceil x = inr a -> py_ceil y = inr b -> a <= b.
Proof.
  intros Hx Hy Hle Ha Hb.
  destruct x as [[] | [] | | [] px ex]; try done.
  - destruct (py_ceil_nonneg y Hy) as (n & Hn & Hpos & _).
    { by destruct y as [[] | [] | | [] py ey]. }
    simpl in Ha. congruence.
  - destruct y as [[] | [] | | [] py ey]; try done.
    destruct (py_ceil_spec px ex) as (n1 & E1 & S1).
    destruct (py_ceil_spec py ey) as (n2 & E2 & S2).
    assert (a = n1) by congruence. assert (b = n2) by congruence. subst.
    apply S1. eapply dle_trans; [by apply fleb_dle|]. by apply S2.
Qed.

(* ===================================================================== *)
(** * The costing engine *)
(* ===================================================================== *)

(** ** The loop over the rows of a service *)

(** When every row resolves, the loop adds the row costs in order. *)
Lemma sum_material_cost_resolved (mats : gmap Z Material) (rows : list ServiceMaterial)
    (acc : float) :
  Forall (fun sm => is_Some (mats !! sm_material_id sm)) rows ->
  sum_material_cost mats rows acc = inr (foldl fadd acc (row_cost mats <$> rows)).
Proof.
  intros Hall. revert acc.
  induction Hall as [| sm rows [material Hm] _ IH]; intros acc; [done|].
  assert (Hrow : row_cost mats sm = float_of_decimal
            (dec_mul (consumption_norm sm) (current_price material)))
    by (unfold row_cost; by rewrite Hm).
  cbn [sum_material_cost fmap list_fmap foldl]. rewrite Hm, Hrow. apply IH.
Qed.

(** The loop stops at the first row whose material is missing. *)
Lemma sum_material_cost_unresolved (mats : gmap Z Material) (rows : list ServiceMaterial)
    (acc : float) :
  Exists (fun sm => mats !! sm_material_id sm = None) rows ->
  exists sm, sm ∈ rows /\ mats !! sm_material_id sm = None /\
             sum_material_cost mats rows acc = inl (sm_material_id sm).
Proof.
  intros Hex. revert acc.
  induction rows as [| sm rows IH]; intros acc; [by apply Exists_nil in Hex|].
  cbn [sum_material_cost].
  destruct (mats !! sm_material_id sm) as [material |] eqn:Hm.
  - apply Exists_cons in Hex as [Hex | Hex]; [congruence|].
    destruct (IH Hex (fadd acc (float_of_decimal
                (dec_mul (consumption_norm sm) (current_price material)))))
      as (sm' & Hin & Hnone & Hsum).
    exists sm'. split; [apply elem_of_cons; by right | done].
  - exists sm. split; [apply elem_of_cons; by left | done].
Qed.


(** ** Every outcome is a value or the sentinel *)

Lemma calculate_service_cost_cases (db : Catalog) (service_code : string) :
  (exists cost, calculate_service_cost db service_code = ret (PyFloat cost)) \/
  (exists r, calculate_service_cost db service_code = fail r).
Proof.
  unfold calculate_service_cost.
  destruct (services db !! service_code) as [service |]; [|right; eauto].
  destruct (materials_of_service db service_code) as [| sm rows]; [right; eauto|].
  destruct (sum_material_cost _ _ _); [right | left]; eauto.
Qed.

(** A rejected argument: one record is logged and the sentinel returned,
    whether or not the message can be formatted. *)
Lemma reject_fails (r : PyVal -> LogRecord) (v : PyVal) :
  exists r', reject r v = fail r'.
Proof. unfold reject. destruct (format_value v); eauto. Qed.

Lemma reject_not_ret (r : PyVal -> LogRecord) (v v' : PyVal) : reject r v <> ret v'.
Proof. unfold reject. by destruct (format_value v). Qed.

Lemma calculate_material_quantity_cases (db : Catalog) (service_type material_type : string)
    (quantity service_params : PyVal) :
  (exists n, calculate_material_quantity db service_type material_type
               quantity service_params = ret (PyInt n)) \/
  (exists r, calculate_material_quantity db service_type material_type
               quantity service_params = fail r).
Proof.
  unfold calculate_material_quantity.
  destruct (as_int quantity) as [q |]; [|right; apply reject_fails].
  destruct (q <=? 0); [right; apply reject_fails|].
  destruct (as_number service_params) as [sp |]; [|right; apply reject_fails].
  destruct (number_le_zero sp); [right; apply reject_fails|].
  destruct (service_types db !! service_type); [|right; eauto].
  destruct (material_types db !! material_type); [|right; eauto].
  destruct (material_quantity_formula _ _ _ _); [right | left]; eauto.
Qed.

(** ** The path of valid arguments *)

Lemma positive_not_le_zero (x : float) : fltb fzero x = true -> fleb x fzero = false.
Proof. by destruct x as [[] | [] | | [] p e]. Qed.

Lemma positive_nonneg (x : float) : is_double x -> fltb fzero x = true -> nonneg x.
Proof. by destruct x as [[] | [] | | [] p e]. Qed.

Lemma calculate_material_quantity_valid (db : Catalog) (service_type material_type : string)
    (q : Z) (sp : float) (service_type_data : ServiceType) (material_type_data : MaterialType) :
  service_types db !! service_type = Some service_type_data ->
  material_types db !! material_type = Some material_type_data ->
  0 < q -> fltb fzero sp = true ->
  calculate_material_quantity db service_type material_type (PyInt q) (PyFloat sp)
  = match q' ← int_to_float q;
          py_ceil (spec_total_quantity sp (complexity_coefficient service_type_data) q'
                     (overconsumption_percent material_type_data)) with
    | inl e => fail (ErrorCalculatingMaterialQuantity e)
    | inr n => ret (PyInt n)
    end.
Proof.
  intros Hst Hmt Hq Hsp. unfold calculate_material_quantity.
  cbn [as_int as_number]. destruct (Z.leb_spec q 0) as [|_]; [lia|].
  cbn [number_le_zero]. rewrite (positive_not_le_zero sp Hsp), Hst, Hmt.
  reflexivity.
Qed.

(* ===================================================================== *)
(** * Failure paths of [calculate_service_cost] *)
(* ===================================================================== *)

(** C6. For a service code that is absent from the catalog,
    [calculate_service_cost] fails with NotFound, whatever the catalog:
    it logs "Service not found" and returns the sentinel. *)
Theorem unknown_service_not_found (db : Catalog) (service_code : string) :
  services db !! service_code = None ->
  calculate_service_cost db service_code = fail (ServiceNotFound service_code) /\
  fails_with (calculate_service_cost db service_code) NotFound.
Proof.
  intros Hs. unfold calculate_service_cost. rewrite Hs.
  split; [done | by eexists].
Qed.

Lemma unknown_service_not_found_witness :
  services sample_catalog !! "S9" = None /\
  calculate_service_cost sample_catalog "S9" = fail (ServiceNotFound "S9") /\
  fails_with (calculate_service_cost sample_catalog "S9") NotFound.
Proof.
  assert (Hs : services sample_catalog !! "S9" = None) by (vm_compute; reflexivity).
  split; [exact Hs | exact (unknown_service_not_found sample_catalog "S9" Hs)].
Defined.

(** C7. For a service that exists but has no consumption row,
    [calculate_service_cost] fails with NoMaterials: it returns the sentinel
    and neither the labour cost nor zero. *)
Theorem no_materials_fails (db : Catalog) (service_code : string) (service : Service) :
  services db !! service_code = Some service ->
  materials_of_service db service_code = [] ->
  calculate_service_cost db service_code = fail (NoMaterialsFound service_code) /\
  fails_with (calculate_service_cost db service_code) NoMaterials /\
  returned (calculate_service_cost db service_code) = PyInt (-1).
Proof.
  intros Hs Hrows. unfold calculate_service_cost. rewrite Hs, Hrows.
  split; [done | split; [by eexists | done]].
Qed.

Lemma no_materials_fails_witness :
  services sample_catalog !! "S3"
  = Some (mkService "C" "Audit" (mkDecimal 0 2) (mkDecimal 100 2) (mkDecimal 100 2)) /\
  materials_of_service sample_catalog "S3" = [] /\
  calculate_service_cost sample_catalog "S3" = fail (NoMaterialsFound "S3") /\
  fails_with (calculate_service_cost sample_catalog "S3") NoMaterials /\
  returned (calculate_service_cost sample_catalog "S3") = PyInt (-1).
Proof.
  assert (Hs : services sample_catalog !! "S3"
               = Some (mkService "C" "Audit" (mkDecimal 0 2) (mkDecimal 100 2)
                         (mkDecimal 100 2))) by (vm_compute; reflexivity).
  assert (Hrows : materials_of_service sample_catalog "S3" = [])
    by (vm_compute; reflexivity).
  split; [exact Hs|]. split; [exact Hrows|].
  exact (no_materials_fails sample_catalog "S3" _ Hs Hrows).
Defined.

(** C8. For a service with at least one consumption row, one of which refers
    to a material that is absent from the catalog, [calculate_service_cost]
    fails: it logs the missing material of such a row and returns the
    sentinel, never a cost computed from the other rows. *)
Theorem missing_material_fails (db : Catalog) (service_code : string) (service : Service) :
  services db !! service_code = Some service ->
  Exists (fun sm => materials db !! sm_material_id sm = None)
         (materials_of_service db service_code) ->
  exists sm,
    sm ∈ materials_of_service db service_code /\
    materials db !! sm_material_id sm = None /\
    calculate_service_cost db service_code = fail (MaterialNotFound (sm_material_id sm)) /\
    fails_with (calculate_service_cost db service_code) NotFound /\
    returned (calculate_service_cost db service_code) = PyInt (-1).
Proof.
  intros Hs Hex. unfold calculate_service_cost. rewrite Hs.
  destruct (sum_material_cost_unresolved (materials db) _ fzero Hex)
    as (sm & Hin & Hnone & Hsum).
  exists sm. split; [done|]. split; [done|].
  destruct (materials_of_service db service_code) as [| sm0 rows] eqn:Hrows.
  - by apply elem_of_nil in Hin.
  - rewrite Hsum. split; [done | split; [by eexists | done]].
Qed.

Lemma missing_material_fails_witness :
  services sample_catalog !! "S4"
  = Some (mkService "C" "Refit" (mkDecimal 0 2) (mkDecimal 100 2) (mkDecimal 100 2)) /\
  Exists (fun sm => materials sample_catalog !! sm_material_id sm = None)
         (materials_of_service sample_catalog "S4") /\
  exists sm,
    sm ∈ materials_of_service sample_catalog "S4" /\
    materials sample_catalog !! sm_material_id sm = None /\
    calculate_service_cost sample_catalog "S4" = fail (MaterialNotFound (sm_material_id sm)) /\
    fails_with (calculate_service_cost sample_catalog "S4") NotFound /\
    returned (calculate_service_cost sample_catalog "S4") = PyInt (-1).
Proof.
  assert (Hs : services sample_catalog !! "S4"
               = Some (mkService "C" "Refit" (mkDecimal 0 2) (mkDecimal 100 2)
                         (mkDecimal 100 2))) by (vm_compute; reflexivity).
  assert (Hex : Exists (fun sm => materials sample_catalog !! sm_material_id sm = None)
                  (materials_of_service sample_catalog "S4")).
  { apply Exists_cons_tl, Exists_cons_hd. vm_compute. reflexivity. }
  split; [exact Hs|]. split; [exact Hex|].
  exact (missing_material_fails sample_catalog "S4" _ Hs Hex).
Defined.

(** C10. The result of [calculate_service_cost] does not depend on the
    [min_cost] of a service: changing that field, of the queried service or
    of any other, leaves the outcome for every service code unchanged. *)
Theorem service_cost_ignores_min_cost (db : Catalog) (changed queried : string)
    (m : Decimal) :
  calculate_service_cost (with_min_cost db changed m) queried
  = calculate_service_cost db queried.
Proof.
  unfold calculate_service_cost, with_min_cost, materials_of_service.
  cbn [services materials service_materials].
  destruct (decide (changed = queried)) as [-> | Hne].
  - rewrite lookup_alter_eq. by destruct (services db !! queried).
  - by rewrite lookup_alter_ne.
Qed.

(* ===================================================================== *)
(** * Failure paths of [calculate_material_quantity] *)
(* ===================================================================== *)




(** A quantity that is [<= 0] and has more digits than the log message can
    hold is rejected too, but it is the [except] clause that logs. *)
Example invalid_quantity_unformattable :
  calculate_material_quantity sample_catalog "A" "B"
    (PyInt (- (10 ^ int_max_str_digits))) (PyFloat fone)
  = fail (ErrorCalculatingMaterialQuantity ValueError).
Proof. vm_compute. reflexivity. Qed.

(** C9. With a positive integer quantity and a positive service parameter,
    [calculate_material_quantity] fails with NotFound when the service type
    is absent from the catalog, and also when the service type exists and
    the material type is absent. *)
Theorem unknown_type_not_found (db : Catalog) (service_type material_type : string)
    (q : Z) (sp : float) :
  0 < q -> fltb fzero sp = true ->
  (service_types db !! service_type = None ->
   calculate_material_quantity db service_type material_type (PyInt q) (PyFloat sp)
   = fail (ServiceTypeNotFound service_type)) /\
  (is_Some (service_types db !! service_type) ->
   material_types db !! material_type = None ->
   calculate_material_quantity db service_type material_type (PyInt q) (PyFloat sp)
   = fail (MaterialTypeNotFound material_type)) /\
  (service_types db !! service_type = None \/
   material_types db !! material_type = None ->
   fails_with (calculate_material_quantity db service_type material_type
                 (PyInt q) (PyFloat sp)) NotFound).
Proof.
  intros Hq Hsp. unfold calculate_material_quantity.
  cbn [as_int as_number number_le_zero].
  destruct (Z.leb_spec q 0) as [|_]; [lia|].
  rewrite (positive_not_le_zero sp Hsp).
  split; [by intros -> |]. split.
  - intros [std ->] ->. done.
  - intros Hnone. destruct (service_types db !! service_type); [|by eexists].
    destruct Hnone as [Hnone | ->]; [done | by eexists].
Qed.

Lemma unknown_type_not_found_witness :
  0 < 3 /\ fltb fzero f_two = true /\
  service_types sample_catalog !! "X" = None /\
  is_Some (service_types sample_catalog !! "A") /\
  material_types sample_catalog !! "Y" = None /\
  calculate_material_quantity sample_catalog "X" "B" (PyInt 3) (PyFloat f_two)
  = fail (ServiceTypeNotFound "X") /\
  calculate_material_quantity sample_catalog "A" "Y" (PyInt 3) (PyFloat f_two)
  = fail (MaterialTypeNotFound "Y").
Proof.
  assert (Hq : 0 < 3) by lia.
  assert (Hsp : fltb fzero f_two = true) by reflexivity.
  assert (Hx : service_types sample_catalog !! "X" = None) by (vm_compute; reflexivity).
  assert (Ha : is_Some (service_types sample_catalog !! "A")) by (vm_compute; eauto).
  assert (Hy : material_types sample_catalog !! "Y" = None) by (vm_compute; reflexivity).
  repeat (split; [assumption|]).
  split.
  - exact (proj1 (unknown_type_not_found sample_catalog "X" "B" 3 f_two Hq Hsp) Hx).
  - exact (proj1 (proj2 (unknown_type_not_found sample_catalog "A" "Y" 3 f_two Hq Hsp)) Ha Hy).
Defined.

(* ===================================================================== *)
(** * The failure signal *)
(* ===================================================================== *)

(** C4, as the code has it. Both operations signal every failure by the same
    integer [-1], whatever the category; a call either returns its result
    with nothing logged, or logs one message, which alone tells the category,
    and returns [-1]. *)
Theorem failure_is_sentinel (db : Catalog) :
  (forall service_code,
     let o := calculate_service_cost db service_code in
     (exists cost, o = ret (PyFloat cost)) \/
     (exists r, logged o = [r] /\ returned o = PyInt (-1))) /\
  (forall service_type material_type quantity service_params,
     let o := calculate_material_quantity db service_type material_type
                quantity service_params in
     (exists n, o = ret (PyInt n)) \/
     (exists r, logged o = [r] /\ returned o = PyInt (-1))).
Proof.
  split.
  - intros service_code o.
    destruct (calculate_service_cost_cases db service_code) as [Hok | [r Hr]];
      [by left | right]. exists r. subst o. by rewrite Hr.
  - intros service_type material_type quantity service_params o.
    destruct (calculate_material_quantity_cases db service_type material_type
                quantity service_params) as [Hok | [r Hr]]; [by left | right].
    exists r. subst o. by rewrite Hr.
Qed.

(** C4 fails as stated: no reading of the returned value tells the failure
    categories apart. An unknown service (NotFound) and a service without
    rows (NoMaterials) return the same value, and so do an invalid quantity
    (InvalidInput) and an unknown service type (NotFound). *)
Lemma failure_categories_conflated_counterexample :
  ~ exists classify : PyVal -> FailureCategory,
      (forall db service_code r,
         calculate_service_cost db service_code = fail r ->
         classify (returned (calculate_service_cost db service_code)) = category r) /\
      (forall db service_type material_type quantity service_params r,
         calculate_material_quantity db service_type material_type quantity service_params
         = fail r ->
         classify (returned (calculate_material_quantity db service_type material_type
                               quantity service_params)) = category r).
Proof.
  intros (classify & Hcost & _).
  pose proof (Hcost sample_catalog "S9" (ServiceNotFound "S9") eq_refl) as H1.
  pose proof (Hcost sample_catalog "S3" (NoMaterialsFound "S3") eq_refl) as H2.
  vm_compute in H1, H2. congruence.
Qed.

(* ===================================================================== *)
(** * The cost of a service *)
(* ===================================================================== *)




(** The code itself does not check the sign of what is stored. The service
    "S5" has an hourly rate of -5.00, which the data model rules out but the
    column admits: one hour of it and one unit at 1.00 cost [-4.0]. *)
Example service_cost_unchecked_sign :
  calculate_service_cost sample_catalog "S5"
  = ret (PyFloat (S754_finite true 4503599627370496 (-50))) /\
  fleb fzero (S754_finite true 4503599627370496 (-50)) = false.
Proof. split; vm_compute; reflexivity. Qed.

(** The example of the specification: two hours at 500.00 and four units at
    50.00 cost 1200.00. *)
Example service_cost_example :
  calculate_service_cost sample_catalog "S1"
  = ret (PyFloat (float_of_decimal (mkDecimal 120000 2))).
Proof. vm_compute. reflexivity. Qed.

(** Rounding acts on the binary sum: one hour at 1.00 and 0.03 units at 0.50
    add up to the double below 1.015, and the cost is 1.01. *)
Example service_cost_rounds_binary_sum :
  calculate_service_cost sample_catalog "S2"
  = ret (PyFloat (float_of_decimal (mkDecimal 101 2))).
Proof. vm_compute. reflexivity. Qed.

(* ===================================================================== *)
(** * The quantity of material *)
(* ===================================================================== *)

Lemma py_ceil_finite (x : float) :
  is_finite x = true -> exists n, py_ceil x = inr n.
Proof. destruct x; try done; simpl; eauto. Qed.

Lemma py_ceil_not_finite (x : float) :
  is_finite x = false -> exists e, py_ceil x = inl e.
Proof. destruct x; try done; simpl; eauto. Qed.

Lemma py_ceil_inr_finite (x : float) (n : Z) : py_ceil x = inr n -> is_finite x = true.
Proof. by destruct x. Qed.

(** C2, as the code has it. For types that exist, a positive integer
    quantity and a positive service parameter, [calculate_material_quantity]
    returns the ceiling of [serviceParams * complexityCoefficient * quantity
    * (1 + overconsumptionPercent)] computed in binary64, provided the
    quantity converts to a double and the product is finite; otherwise it
    returns [-1]. With coefficient 1.5, overconsumption 0.10, quantity 3 and
    parameter 2.0 it returns 10. *)
Theorem material_quantity_formula_correct (db : Catalog)
    (service_type material_type : string) (q : Z) (sp : float)
    (service_type_data : ServiceType) (material_type_data : MaterialType) :
  service_types db !! service_type = Some service_type_data ->
  material_types db !! material_type = Some material_type_data ->
  0 < q -> fltb fzero sp = true ->
  let coefficient := complexity_coefficient service_type_data in
  let pct := overconsumption_percent material_type_data in
  let o := calculate_material_quantity db service_type material_type
             (PyInt q) (PyFloat sp) in
  (forall qf, int_to_float q = inr qf ->
     is_finite (spec_total_quantity sp coefficient qf pct) = true ->
     exists n, py_ceil (spec_total_quantity sp coefficient qf pct) = inr n /\
               o = ret (PyInt n)) /\
  (int_to_float q = inl OverflowError \/
   (exists qf, int_to_float q = inr qf /\
               is_finite (spec_total_quantity sp coefficient qf pct) = false) ->
   exists e, o = fail (ErrorCalculatingMaterialQuantity e)) /\
  (coefficient = mkDecimal 15 1 -> pct = mkDecimal 10 2 -> q = 3 -> sp = f_two ->
   o = ret (PyInt 10)).
Proof.
  intros Hst Hmt Hq Hsp coefficient pct o. subst o.
  rewrite (calculate_material_quantity_valid _ _ _ _ _ _ _ Hst Hmt Hq Hsp).
  fold coefficient pct. split; [|split].
  - intros qf Hqf Hfin. rewrite Hqf. cbn [mbind exn_bind].
    destruct (py_ceil_finite _ Hfin) as [n Hn]. exists n. by rewrite Hn.
  - intros [Hof | (qf & Hqf & Hinf)].
    + rewrite Hof. by eexists.
    + rewrite Hqf. cbn [mbind exn_bind].
      destruct (py_ceil_not_finite _ Hinf) as [e He]. exists e. by rewrite He.
  - intros -> -> -> ->. vm_compute. reflexivity.
Qed.

Lemma material_quantity_formula_correct_witness :
  service_types sample_catalog !! "A" = Some (mkServiceType (mkDecimal 15 1)) /\
  material_types sample_catalog !! "B" = Some (mkMaterialType (mkDecimal 10 2)) /\
  0 < 3 /\ fltb fzero f_two = true /\
  calculate_material_quantity sample_catalog "A" "B" (PyInt 3) (PyFloat f_two)
  = ret (PyInt 10).
Proof.
  assert (Hst : service_types sample_catalog !! "A" = Some (mkServiceType (mkDecimal 15 1)))
    by (vm_compute; reflexivity).
  assert (Hmt : material_types sample_catalog !! "B" = Some (mkMaterialType (mkDecimal 10 2)))
    by (vm_compute; reflexivity).
  assert (Hq : 0 < 3) by lia.
  assert (Hsp : fltb fzero f_two = true) by reflexivity.
  repeat (split; [assumption|]).
  exact (proj2 (proj2 (material_quantity_formula_correct sample_catalog "A" "B" 3 f_two
                         _ _ Hst Hmt Hq Hsp)) eq_refl eq_refl eq_refl eq_refl).
Defined.

(** C2 fails as stated: for the existing types "D" (coefficient 2.0) and "Z"
    (overconsumption 0.00), quantity 1 and the positive parameter 1e308 the
    product overflows, [math.ceil] raises, and the call returns [-1] and no
    ceiling. *)
Lemma material_quantity_overflow_counterexample :
  is_Some (service_types sample_catalog !! "D") /\
  is_Some (material_types sample_catalog !! "Z") /\
  fltb fzero f_1e308 = true /\ is_double f_1e308 /\
  calculate_material_quantity sample_catalog "D" "Z" (PyInt 1) (PyFloat f_1e308)
  = fail (ErrorCalculatingMaterialQuantity OverflowError).
Proof.
  split; [vm_compute; eauto|]. split; [vm_compute; eauto|].
  repeat split; vm_compute; reflexivity.
Qed.

(** The rounding of each operation shows in ordinary inputs too: for the
    coefficient 0.8, overconsumption 0.25, quantity 3 and parameter 1.0 the
    exact product is 3, the binary one is just above it, and 4 is returned. *)
Example material_quantity_rounds_binary_product :
  calculate_material_quantity sample_catalog "C" "Q" (PyInt 3) (PyFloat fone)
  = ret (PyInt 4).
Proof. vm_compute. reflexivity. Qed.

(** NaN is a float that is not [<= 0]: it passes the validation, and the
    call fails in [math.ceil]. *)
Example material_quantity_nan :
  calculate_material_quantity sample_catalog "A" "B" (PyInt 3) (PyFloat S754_nan)
  = fail (ErrorCalculatingMaterialQuantity ValueError).
Proof. vm_compute. reflexivity. Qed.

(** ** Bounds and monotonicity *)

Lemma fmul_le_finite (x1 x2 y : float) :
  nonneg x1 -> nonneg x2 -> nonneg y ->
  is_finite x2 = true -> is_finite y = true -> is_finite (fmul x2 y) = true ->
  fleb x1 x2 = true ->
  fleb (fmul x1 y) (fmul x2 y) = true /\ nonneg (fmul x1 y) /\
  is_finite (fmul x1 y) = true.
Proof.
  intros N1 N2 Ny F2 Fy F Hle.
  pose proof (fleb_finite_l x1 x2 N1 Hle F2) as F1.
  pose proof (fmul_mono_l x1 x2 y N1 N2 Ny F1 F2 Fy Hle) as Hm.
  pose proof (fmul_nonneg x1 y N1 Ny F1 Fy) as N.
  split; [done|]. split; [done|]. by apply (fleb_finite_l _ _ N Hm).
Qed.

(** The outcome of a call with valid arguments, read backwards. *)
Lemma calculate_material_quantity_success (db : Catalog) (service_type material_type : string)
    (q : Z) (sp : float) (service_type_data : ServiceType) (material_type_data : MaterialType)
    (n : Z) :
  service_types db !! service_type = Some service_type_data ->
  material_types db !! material_type = Some material_type_data ->
  0 < q -> fltb fzero sp = true ->
  calculate_material_quantity db service_type material_type (PyInt q) (PyFloat sp)
  = ret (PyInt n) <->
  exists qf, int_to_float q = inr qf /\
             py_ceil (spec_total_quantity sp (complexity_coefficient service_type_data) qf
                        (overconsumption_percent material_type_data)) = inr n.
Proof.
  intros Hst Hmt Hq Hsp.
  rewrite (calculate_material_quantity_valid _ _ _ _ _ _ _ Hst Hmt Hq Hsp).
  destruct (int_to_float q) as [e | qf]; cbn [mbind exn_bind].
  - split; [done | by intros (qf & ? & _)].
  - destruct (py_ceil _) as [e | n'] eqn:E.
    + split; [done | intros (qf' & [= <-] & ?); congruence].
    + split; [intros [= ->]; eauto | intros (qf' & [= <-] & ?); congruence].
Qed.

(** The factors of a finite product are finite and not negative. *)
Lemma total_quantity_parts (sp qf : float) (coefficient pct : Decimal) :
  nonneg sp -> nonneg qf ->
  0 <= unscaled coefficient -> 0 <= unscaled pct ->
  is_finite (spec_total_quantity sp coefficient qf pct) = true ->
  let c := float_of_decimal coefficient in
  let u := fadd fone (float_of_decimal pct) in
  nonneg c /\ nonneg u /\ fleb fone u = true /\
  is_finite sp = true /\ is_finite c = true /\ is_finite qf = true /\
  is_finite u = true /\ is_finite (fmul sp c) = true /\
  is_finite (fmul (fmul sp c) qf) = true.
Proof.
  intros Nsp Nqf Hc Hp Hfin c u. unfold spec_total_quantity in Hfin. fold c u in Hfin.
  apply fmul_finite in Hfin as [Ft Fu].
  pose proof Ft as Ft'. apply fmul_finite in Ft' as [Fb Fq].
  pose proof Fb as Fb'. apply fmul_finite in Fb' as [Fsp Fc].
  assert (Nc : nonneg c) by by apply float_of_decimal_nonneg.
  assert (No : nonneg (float_of_decimal pct)) by by apply float_of_decimal_nonneg.
  assert (Nu : nonneg u) by by apply fadd_nonneg.
  pose proof (fadd_one_ge _ No) as Hu.
  repeat split; done.
Qed.

(** C3, as the code has it. For types that exist with a positive coefficient
    and an overconsumption that is not negative, a positive integer
    quantity and a positive service parameter, a call that succeeds (the
    binary64 product does not overflow) returns an integer [>= 0], which is
    zero only when the product underflows to zero, and which is at least the
    ceiling of [serviceParams * complexityCoefficient * quantity] in
    binary64. If a call succeeds, so does the call with a smaller quantity
    or a smaller service parameter, and it does not return more. *)
Theorem material_quantity_bounds_monotone (db : Catalog)
    (service_type material_type : string)
    (service_type_data : ServiceType) (material_type_data : MaterialType) :
  service_types db !! service_type = Some service_type_data ->
  material_types db !! material_type = Some material_type_data ->
  0 < unscaled (complexity_coefficient service_type_data) ->
  0 <= unscaled (overconsumption_percent material_type_data) ->
  let coefficient := complexity_coefficient service_type_data in
  let pct := overconsumption_percent material_type_data in
  let quantity_of q sp :=
    calculate_material_quantity db service_type material_type (PyInt q) (PyFloat sp) in
  (forall q sp n,
     0 < q -> is_double sp -> fltb fzero sp = true ->
     quantity_of q sp = ret (PyInt n) ->
     0 <= n /\
     exists qf, int_to_float q = inr qf /\
       (n = 0 -> spec_total_quantity sp coefficient qf pct = fzero) /\
       exists n0, py_ceil (fmul (fmul sp (float_of_decimal coefficient)) qf) = inr n0 /\
                  n0 <= n) /\
  (forall q1 q2 sp n2,
     0 < q1 <= q2 -> is_double sp -> fltb fzero sp = true ->
     quantity_of q2 sp = ret (PyInt n2) ->
     exists n1, quantity_of q1 sp = ret (PyInt n1) /\ n1 <= n2) /\
  (forall q sp1 sp2 n2,
     0 < q -> is_double sp1 -> is_double sp2 ->
     fltb fzero sp1 = true -> fleb sp1 sp2 = true ->
     quantity_of q sp2 = ret (PyInt n2) ->
     exists n1, quantity_of q sp1 = ret (PyInt n1) /\ n1 <= n2).
Proof.
  intros Hst Hmt Hc Hp coefficient pct quantity_of.
  assert (Hc0 : 0 <= unscaled coefficient) by (unfold coefficient; lia).
  split; [|split].
  - intros q sp n Hq Dsp Hsp Hok. unfold quantity_of in Hok.
    apply (calculate_material_quantity_success _ _ _ _ _ _ _ _ Hst Hmt Hq Hsp) in Hok
      as (qf & Hqf & Hn). fold coefficient pct in Hn.
    destruct (int_to_float_pos q qf Hq Hqf) as (_ & Nq & _ & _).
    pose proof (positive_nonneg sp Dsp Hsp) as Nsp.
    pose proof (py_ceil_inr_finite _ _ Hn) as Hfin.
    destruct (total_quantity_parts sp qf coefficient pct Nsp Nq Hc0 Hp Hfin)
      as (Nc & Nu & Hu & Fsp & Fc & Fq & Fu & Fb & Ft).
    pose proof (fmul_nonneg _ _ Nsp Nc Fsp Fc) as Nb.
    pose proof (fmul_nonneg _ _ Nb Nq Fb Fq) as Nt.
    pose proof (fmul_nonneg _ _ Nt Nu Ft Fu) as Ntotal.
    destruct (py_ceil_nonneg _ Ntotal Hfin) as (n' & Hn' & Hpos & Hzero).
    unfold spec_total_quantity in Hn. rewrite Hn in Hn'. injection Hn' as <-.
    split; [done|]. exists qf. split; [done|]. split; [done|].
    destruct (py_ceil_nonneg _ Nt Ft) as (n0 & Hn0 & _ & _).
    exists n0. split; [done|].
    apply (py_ceil_mono _ _ n0 n Nt Ntotal); [|done|done].
    by apply fmul_ge.
  - intros q1 q2 sp n2 Hq Dsp Hsp Hok. unfold quantity_of in *.
    assert (Hq1 : 0 < q1) by lia. assert (Hq2 : 0 < q2) by lia.
    apply (calculate_material_quantity_success _ _ _ _ _ _ _ _ Hst Hmt
             Hq2 Hsp) in Hok as (qf2 & Hqf2 & Hn2). fold coefficient pct in Hn2.
    destruct (int_to_float_mono q1 q2 qf2 Hq Hqf2) as (qf1 & Hqf1 & Hle).
    destruct (int_to_float_pos q2 qf2 Hq2 Hqf2) as (_ & Nq2 & _ & _).
    destruct (int_to_float_pos q1 qf1 Hq1 Hqf1) as (_ & Nq1 & Fq1 & _).
    pose proof (positive_nonneg sp Dsp Hsp) as Nsp.
    pose proof (py_ceil_inr_finite _ _ Hn2) as Hfin.
    destruct (total_quantity_parts sp qf2 coefficient pct Nsp Nq2 Hc0 Hp Hfin)
      as (Nc & Nu & Hu & Fsp & Fc & Fq2 & Fu & Fb & Ft2).
    pose proof (fmul_nonneg _ _ Nsp Nc Fsp Fc) as Nb.
    pose proof (fmul_nonneg _ _ Nb Nq2 Fb Fq2) as Nt2.
    pose proof (fmul_nonneg _ _ Nb Nq1 Fb Fq1) as Nt1.
    pose proof (fmul_mono_r _ _ _ Nb Nq1 Nq2 Fb Fq1 Fq2 Hle) as Ht.
    destruct (fmul_le_finite _ _ _ Nt1 Nt2 Nu Ft2 Fu Hfin Ht) as (Htot & Ntot1 & Ftot1).
    destruct (py_ceil_nonneg _ Ntot1 Ftot1) as (n1 & Hn1 & _ & _).
    exists n1. split.
    + apply (calculate_material_quantity_success _ _ _ _ _ _ _ _ Hst Hmt Hq1 Hsp).
      by exists qf1.
    + apply (py_ceil_mono _ _ n1 n2 Ntot1 (fmul_nonneg _ _ Nt2 Nu Ft2 Fu) Htot Hn1 Hn2).
  - intros q sp1 sp2 n2 Hq Dsp1 Dsp2 Hsp1 Hle Hok. unfold quantity_of in *.
    assert (Hsp2 : fltb fzero sp2 = true).
    { clear -Hsp1 Hle.
      by destruct sp1 as [[] | [] | | [] p1 e1], sp2 as [[] | [] | | [] p2 e2]. }
    apply (calculate_material_quantity_success _ _ _ _ _ _ _ _ Hst Hmt Hq Hsp2) in Hok
      as (qf & Hqf & Hn2). fold coefficient pct in Hn2.
    destruct (int_to_float_pos q qf Hq Hqf) as (_ & Nq & _ & _).
    pose proof (positive_nonneg sp1 Dsp1 Hsp1) as Nsp1.
    pose proof (positive_nonneg sp2 Dsp2 Hsp2) as Nsp2.
    pose proof (py_ceil_inr_finite _ _ Hn2) as Hfin.
    destruct (total_quantity_parts sp2 qf coefficient pct Nsp2 Nq Hc0 Hp Hfin)
      as (Nc & Nu & Hu & Fsp2 & Fc & Fq & Fu & Fb2 & Ft2).
    pose proof (fmul_nonneg _ _ Nsp2 Nc Fsp2 Fc) as Nb2.
    pose proof (fmul_nonneg _ _ Nb2 Nq Fb2 Fq) as Nt2.
    destruct (fmul_le_finite _ _ _ Nsp1 Nsp2 Nc Fsp2 Fc Fb2 Hle) as (Hb & Nb1 & Fb1).
    destruct (fmul_le_finite _ _ _ Nb1 Nb2 Nq Fb2 Fq Ft2 Hb) as (Ht & Nt1 & Ft1).
    destruct (fmul_le_finite _ _ _ Nt1 Nt2 Nu Ft2 Fu Hfin Ht) as (Htot & Ntot1 & Ftot1).
    destruct (py_ceil_nonneg _ Ntot1 Ftot1) as (n1 & Hn1 & _ & _).
    exists n1. split.
    + apply (calculate_material_quantity_success _ _ _ _ _ _ _ _ Hst Hmt Hq Hsp1).
      by exists qf.
    + apply (py_ceil_mono _ _ n1 n2 Ntot1 (fmul_nonneg _ _ Nt2 Nu Ft2 Fu) Htot Hn1 Hn2).
Qed.

Lemma material_quantity_bounds_monotone_witness :
  service_types sample_catalog !! "A" = Some (mkServiceType (mkDecimal 15 1)) /\
  material_types sample_catalog !! "B" = Some (mkMaterialType (mkDecimal 10 2)) /\
  0 < unscaled (mkDecimal 15 1) /\ 0 <= unscaled (mkDecimal 10 2) /\
  calculate_material_quantity sample_catalog "A" "B" (PyInt 3) (PyFloat f_two)
  = ret (PyInt 10) /\
  0 <= 10 /\
  (exists n1, calculate_material_quantity sample_catalog "A" "B" (PyInt 2) (PyFloat f_two)
              = ret (PyInt n1) /\ n1 <= 10) /\
  (exists n1, calculate_material_quantity sample_catalog "A" "B" (PyInt 3) (PyFloat fone)
              = ret (PyInt n1) /\ n1 <= 10).
Proof.
  assert (Hst : service_types sample_catalog !! "A" = Some (mkServiceType (mkDecimal 15 1)))
    by (vm_compute; reflexivity).
  assert (Hmt : material_types sample_catalog !! "B" = Some (mkMaterialType (mkDecimal 10 2)))
    by (vm_compute; reflexivity).
  assert (Hc : 0 < unscaled (mkDecimal 15 1)) by (simpl; lia).
  assert (Hp : 0 <= unscaled (mkDecimal 10 2)) by (simpl; lia).
  assert (Hok : calculate_material_quantity sample_catalog "A" "B" (PyInt 3) (PyFloat f_two)
                = ret (PyInt 10)) by (vm_compute; reflexivity).
  assert (Dtwo : is_double f_two) by reflexivity.
  assert (Done : is_double fone) by reflexivity.
  assert (Ptwo : fltb fzero f_two = true) by reflexivity.
  assert (Pone : fltb fzero fone = true) by reflexivity.
  assert (Hle : fleb fone f_two = true) by reflexivity.
  assert (H3 : 0 < 3) by lia.
  assert (H23 : 0 < 2 <= 3) by lia.
  split; [exact Hst|]. split; [exact Hmt|]. split; [exact Hc|]. split; [exact Hp|].
  split; [exact Hok|].
  destruct (material_quantity_bounds_monotone sample_catalog "A" "B" _ _ Hst Hmt Hc Hp)
    as (Hbound & Hmono_q & Hmono_sp).
  split; [exact (proj1 (Hbound 3 f_two 10 H3 Dtwo Ptwo Hok))|].
  split; [exact (Hmono_q 2 3 f_two 10 H23 Dtwo Ptwo Hok)|].
  exact (Hmono_sp 3 fone f_two 10 H3 Done Dtwo Pone Hle Hok).
Defined.

(** C3 fails as stated. For the type "E" (coefficient 0.1) and "Z"
    (overconsumption 0.00), quantity 1 and the least positive double as the
    service parameter, the product underflows and 0 is returned, which is not
    positive. For the type "D" (coefficient 2.0) the parameter 1.0 gives 2 and
    the greater parameter 1e308 gives [-1]: the result decreases. *)
Lemma material_quantity_not_positive_counterexample :
  (service_types sample_catalog !! "E" = Some (mkServiceType (mkDecimal 1 1)) /\
   material_types sample_catalog !! "Z" = Some (mkMaterialType (mkDecimal 0 2)) /\
   is_double f_5e324 /\ fltb fzero f_5e324 = true /\
   calculate_material_quantity sample_catalog "E" "Z" (PyInt 1) (PyFloat f_5e324)
   = ret (PyInt 0)) /\
  (service_types sample_catalog !! "D" = Some (mkServiceType (mkDecimal 20 1)) /\
   is_double fone /\ is_double f_1e308 /\ fltb fzero fone = true /\
   fleb fone f_1e308 = true /\
   calculate_material_quantity sample_catalog "D" "Z" (PyInt 1) (PyFloat fone)
   = ret (PyInt 2) /\
   calculate_material_quantity sample_catalog "D" "Z" (PyInt 1) (PyFloat f_1e308)
   = fail (ErrorCalculatingMaterialQuantity OverflowError)).
Proof. repeat split; vm_compute; reflexivity. Qed.

(* ===================================================================== *)
(** * Further properties of [calculate_service_cost] *)
(* ===================================================================== *)

(** The loop ends with a sum only when every row resolves. *)
Lemma sum_material_cost_inr (mats : gmap Z Material) (rows : list ServiceMaterial)
    (acc material_cost : float) :
  sum_material_cost mats rows acc = inr material_cost ->
  Forall (fun sm => is_Some (mats !! sm_material_id sm)) rows.
Proof.
  revert acc. induction rows as [| sm rows IH]; intros acc Hsum; [by apply Forall_nil|].
  cbn [sum_material_cost] in Hsum.
  destruct (mats !! sm_material_id sm) as [material |] eqn:Hm; [|done].
  apply Forall_cons. split; [by rewrite Hm | by eapply IH].
Qed.

(** A cost is returned exactly when the service exists, has at least one
    consumption row and every row resolves; in every other case the
    sentinel is. *)
Theorem service_cost_succeeds_iff (db : Catalog) (service_code : string) :
  (exists cost, calculate_service_cost db service_code = ret (PyFloat cost)) <->
  is_Some (services db !! service_code) /\
  materials_of_service db service_code <> [] /\
  Forall (fun sm => is_Some (materials db !! sm_material_id sm))
         (materials_of_service db service_code).
Proof.
  split.
  - intros [cost Hok]. unfold calculate_service_cost in Hok.
    destruct (services db !! service_code) as [service |]; [|done].
    split; [done|].
    destruct (materials_of_service db service_code) as [| sm rows] eqn:Hrows; [done|].
    split; [done|].
    destruct (sum_material_cost (materials db) (sm :: rows) fzero) as [| c] eqn:Hsum; [done|].
    by apply (sum_material_cost_inr _ _ _ _ Hsum).
  - intros ([service Hs] & Hrows & Hall). unfold calculate_service_cost. rewrite Hs.
    pose proof (sum_material_cost_resolved _ _ fzero Hall) as Hsum.
    destruct (materials_of_service db service_code) as [| sm rows]; [done|].
    rewrite Hsum. by eexists.
Qed.

(** A consumption row of another service, wherever it is inserted in the
    table, does not change the outcome for this service. *)
Theorem service_cost_ignores_other_rows (db : Catalog) (service_code : string)
    (before after : list ServiceMaterial) (sm : ServiceMaterial) :
  service_materials db = before ++ after ->
  sm_service_code sm <> service_code ->
  calculate_service_cost (with_service_materials db (before ++ sm :: after)) service_code
  = calculate_service_cost db service_code.
Proof.
  intros Hrows Hother.
  assert (Hsame : materials_of_service (with_service_materials db (before ++ sm :: after))
                    service_code = materials_of_service db service_code).
  { unfold materials_of_service, with_service_materials. cbn [service_materials].
    rewrite Hrows, !filter_app, filter_cons. by destruct (decide _). }
  unfold calculate_service_cost. rewrite Hsame. done.
Qed.

Lemma service_cost_ignores_other_rows_witness :
  service_materials sample_catalog
  = [mkServiceMaterial "S1" 1 (mkDecimal 400 2)]
    ++ [mkServiceMaterial "S2" 2 (mkDecimal 3 2);
        mkServiceMaterial "S4" 1 (mkDecimal 100 2);
        mkServiceMaterial "S4" 7 (mkDecimal 100 2);
        mkServiceMaterial "S5" 3 (mkDecimal 100 2)] /\
  sm_service_code (mkServiceMaterial "S2" 1 (mkDecimal 900 2)) <> "S1" /\
  calculate_service_cost
    (with_service_materials sample_catalog
       ([mkServiceMaterial "S1" 1 (mkDecimal 400 2)]
        ++ mkServiceMaterial "S2" 1 (mkDecimal 900 2)
        :: [mkServiceMaterial "S2" 2 (mkDecimal 3 2);
            mkServiceMaterial "S4" 1 (mkDecimal 100 2);
            mkServiceMaterial "S4" 7 (mkDecimal 100 2);
            mkServiceMaterial "S5" 3 (mkDecimal 100 2)])) "S1"
  = calculate_service_cost sample_catalog "S1".
Proof.
  assert (Hrows : service_materials sample_catalog
            = [mkServiceMaterial "S1" 1 (mkDecimal 400 2)]
              ++ [mkServiceMaterial "S2" 2 (mkDecimal 3 2);
                  mkServiceMaterial "S4" 1 (mkDecimal 100 2);
                  mkServiceMaterial "S4" 7 (mkDecimal 100 2);
                  mkServiceMaterial "S5" 3 (mkDecimal 100 2)]) by reflexivity.
  assert (Hother : sm_service_code (mkServiceMaterial "S2" 1 (mkDecimal 900 2)) <> "S1")
    by (simpl; discriminate).
  split; [exact Hrows|]. split; [exact Hother|].
  exact (service_cost_ignores_other_rows sample_catalog "S1" _ _ _ Hrows Hother).
Defined.

Lemma sum_material_cost_insert (mats : gmap Z Material) (rows : list ServiceMaterial)
    (acc : float) (material_id : Z) (material : Material) :
  Forall (fun sm => sm_material_id sm <> material_id) rows ->
  sum_material_cost (<[material_id := material]> mats) rows acc
  = sum_material_cost mats rows acc.
Proof.
  intros Hall. revert acc.
  induction Hall as [| sm rows Hne _ IH]; intros acc; [done|].
  cbn [sum_material_cost]. rewrite lookup_insert_ne by done.
  destruct (mats !! sm_material_id sm); [apply IH | done].
Qed.

(** Adding a material, or changing one (its price included), that no row of
    this service refers to does not change the outcome for this service. *)
Theorem service_cost_ignores_other_materials (db : Catalog) (service_code : string)
    (material_id : Z) (material : Material) :
  Forall (fun sm => sm_material_id sm <> material_id)
         (materials_of_service db service_code) ->
  calculate_service_cost
    (with_materials db (<[material_id := material]> (materials db))) service_code
  = calculate_service_cost db service_code.
Proof.
  intros Hall. unfold calculate_service_cost, with_materials, materials_of_service in *.
  cbn [services materials service_materials].
  destruct (services db !! service_code); [|done].
  destruct (filter _ (service_materials db)) as [| sm rows]; [done|].
  by rewrite sum_material_cost_insert.
Qed.

Lemma service_cost_ignores_other_materials_witness :
  Forall (fun sm => sm_material_id sm <> 2) (materials_of_service sample_catalog "S1") /\
  calculate_service_cost
    (with_materials sample_catalog
       (<[2 := mkMaterial "B" "Glue" (mkDecimal 99900 2)]> (materials sample_catalog))) "S1"
  = calculate_service_cost sample_catalog "S1".
Proof.
  assert (Hall : Forall (fun sm => sm_material_id sm <> 2)
                   (materials_of_service sample_catalog "S1")).
  { apply Forall_cons. split; [vm_compute; discriminate | apply Forall_nil; exact I]. }
  split; [exact Hall|].
  exact (service_cost_ignores_other_materials sample_catalog "S1" 2 _ Hall).
Defined.

(** The material reported missing is that of the first row, in query order,
    that does not resolve: the rows after it are not looked at. *)
Theorem first_missing_material_reported (db : Catalog) (service_code : string)
    (service : Service) (before after : list ServiceMaterial) (sm : ServiceMaterial) :
  services db !! service_code = Some service ->
  materials_of_service db service_code = before ++ sm :: after ->
  Forall (fun sm' => is_Some (materials db !! sm_material_id sm')) before ->
  materials db !! sm_material_id sm = None ->
  calculate_service_cost db service_code = fail (MaterialNotFound (sm_material_id sm)).
Proof.
  intros Hs Hrows Hbefore Hnone. unfold calculate_service_cost. rewrite Hs, Hrows.
  assert (Hsum : forall acc, sum_material_cost (materials db) (before ++ sm :: after) acc
                             = inl (sm_material_id sm)).
  { clear Hrows. induction Hbefore as [| sm' before [material Hm] _ IH]; intros acc.
    - cbn [app sum_material_cost]. by rewrite Hnone.
    - cbn [app sum_material_cost]. rewrite Hm. apply IH. }
  specialize (Hsum fzero).
  destruct (before ++ sm :: after) as [| sm0 rows]; [by destruct before|].
  by rewrite Hsum.
Qed.

Lemma first_missing_material_reported_witness :
  services sample_catalog !! "S4"
  = Some (mkService "C" "Refit" (mkDecimal 0 2) (mkDecimal 100 2) (mkDecimal 100 2)) /\
  materials_of_service sample_catalog "S4"
  = [mkServiceMaterial "S4" 1 (mkDecimal 100 2)]
    ++ mkServiceMaterial "S4" 7 (mkDecimal 100 2) :: [] /\
  Forall (fun sm' => is_Some (materials sample_catalog !! sm_material_id sm'))
         [mkServiceMaterial "S4" 1 (mkDecimal 100 2)] /\
  materials sample_catalog !! sm_material_id (mkServiceMaterial "S4" 7 (mkDecimal 100 2))
  = None /\
  calculate_service_cost sample_catalog "S4" = fail (MaterialNotFound 7).
Proof.
  assert (Hs : services sample_catalog !! "S4"
               = Some (mkService "C" "Refit" (mkDecimal 0 2) (mkDecimal 100 2)
                         (mkDecimal 100 2))) by (vm_compute; reflexivity).
  assert (Hrows : materials_of_service sample_catalog "S4"
                  = [mkServiceMaterial "S4" 1 (mkDecimal 100 2)]
                    ++ mkServiceMaterial "S4" 7 (mkDecimal 100 2) :: [])
    by (vm_compute; reflexivity).
  assert (Hbefore : Forall (fun sm' => is_Some (materials sample_catalog !! sm_material_id sm'))
                      [mkServiceMaterial "S4" 1 (mkDecimal 100 2)]).
  { apply Forall_cons. split; [vm_compute; eauto | apply Forall_nil; exact I]. }
  assert (Hnone : materials sample_catalog
                    !! sm_material_id (mkServiceMaterial "S4" 7 (mkDecimal 100 2)) = None)
    by (vm_compute; reflexivity).
  split; [exact Hs|]. split; [exact Hrows|]. split; [exact Hbefore|]. split; [exact Hnone|].
  exact (first_missing_material_reported sample_catalog "S4" _ _ _ _ Hs Hrows Hbefore Hnone).
Defined.

(* ===================================================================== *)
(** * Further properties of [calculate_material_quantity] *)
(* ===================================================================== *)

(** ** Doubles are closed under the operations *)

Lemma binary_round_aux_is_double (s : bool) (m e : Z) (l : location) :
  0 <= m -> e <= cexp m e -> is_double (binary_round_aux prec emax s m e l).
Proof.
  intros Hm He.
  destruct (binary_round_aux_spec s m e l Hm He) as (m2 & -> & Hr & Hub & Hlb & _).
  apply finish_is_double, carry_canon; [|rewrite cexp_eq; lia | done].
  assert (0 <= m / 2 ^ (cexp m e - e)); [|lia].
  apply Z.div_pos; [done | apply pow2_pos; lia].
Qed.

Lemma fdiv_is_double (s1 s2 : bool) (p1 p2 : positive) (e1 e2 : Z) :
  is_double (fdiv (S754_finite s1 p1 e1) (S754_finite s2 p2 e2)).
Proof.
  unfold fdiv, SFdiv. pose proof (SFdiv_core_binary_pre p1 p2 e1 e2) as H.
  destruct (SFdiv_core_binary prec emax (Z.pos p1) e1 (Z.pos p2) e2) as [[q e'] l].
  destruct H as [Hq He]. by apply binary_round_aux_is_double.
Qed.

Lemma float_of_decimal_is_double (d : Decimal) : is_double (float_of_decimal d).
Proof.
  unfold float_of_decimal. destruct (unscaled d); [done | apply fdiv_is_double ..].
Qed.

Lemma fmul_is_double (x y : float) : is_double x -> is_double y -> is_double (fmul x y).
Proof.
  intros Dx Dy.
  destruct x as [sx | sx | | sx px ex], y as [sy | sy | | sy py ey]; try done.
  rewrite fmul_round by done. apply binary_round_is_double.
Qed.

Lemma int_to_float_is_double (q : Z) (f : float) : int_to_float q = inr f -> is_double f.
Proof.
  unfold int_to_float. destruct q as [| p | p]; cbn [binary_normalize].
  - by intros [= <-].
  - pose proof (binary_round_is_double false p 0) as D.
    destruct (binary_round prec emax false p 0); try done; by intros [= <-].
  - pose proof (binary_round_is_double true p 0) as D.
    destruct (binary_round prec emax true p 0); try done; by intros [= <-].
Qed.

(** Multiplication by [1.0] is exact. *)
Lemma fmul_one_r (x : float) : is_double x -> fmul x fone = x.
Proof.
  intros Dx. destruct x as [sx | sx | | sx p e]; try done; try (by destruct sx).
  unfold fone. rewrite fmul_round by done.
  rewrite xorb_false_r, binary_round_rnd.
  pose proof (is_double_cexp sx p e Dx) as Hc.
  destruct (is_double_canon sx p e Dx) as [(Hm & _ & _) Hb].
  rewrite Pos2Z.inj_mul. change (Z.pos 4503599627370496) with (2 ^ 52).
  assert (Hc' : cexp (Z.pos p * 2 ^ 52) (e + -52) = e).
  { unfold cexp. rewrite Zdigits2_shift by lia.
    replace (Zdigits2 (Z.pos p) + 52 + (e + -52)) with (Zdigits2 (Z.pos p) + e) by lia.
    exact Hc. }
  unfold rnd_any, align. rewrite Hc'.
  destruct (Z.ltb_spec e (e + -52)) as [|_]; [lia|]. cbn [fst snd].
  unfold rnd. rewrite Hc'. replace (e - (e + -52)) with 52 by lia.
  rewrite <- (Z.mul_1_l (2 ^ 52)) at 2.
  rewrite div_half_even_scale by lia. rewrite div_half_even_exact.
  unfold carry. destruct (Z.eqb_spec (Z.pos p) (2 ^ 53)) as [E | _]; [lia|].
  unfold finish. cbn [fst snd]. by apply Z.leb_le in Hb as ->.
Qed.

(** ** Validation and conversions *)

Lemma fmul_not_finite_l (x y : float) : is_finite x = false -> is_finite (fmul x y) = false.
Proof.
  intros Hx. destruct (is_finite (fmul x y)) eqn:E; [|done].
  apply fmul_finite in E as [E _]. congruence.
Qed.

(** The outcome for a service parameter that is NaN or [+inf]. *)
Lemma calculate_material_quantity_non_finite (db : Catalog)
    (service_type material_type : string) (q : Z) (sp : float) :
  0 < q -> sp = S754_nan \/ sp = S754_infinity false ->
  exists r,
    calculate_material_quantity db service_type material_type (PyInt q) (PyFloat sp)
    = fail r /\
    category r <> InvalidInput.
Proof.
  intros Hq Hsp. unfold calculate_material_quantity. cbn [as_int as_number number_le_zero].
  destruct (Z.leb_spec q 0) as [|_]; [lia|].
  assert (Hle : fleb sp fzero = false) by (by destruct Hsp as [-> | ->]).
  assert (Hinf : is_finite sp = false) by (by destruct Hsp as [-> | ->]).
  rewrite Hle.
  destruct (service_types db !! service_type) as [std |]; [|by eexists].
  destruct (material_types db !! material_type) as [mtd |]; [|by eexists].
  unfold material_quantity_formula. cbn [to_float mbind exn_bind].
  destruct (int_to_float q) as [e | qf]; [by eexists|].
  cbn [mbind exn_bind]. cbv zeta.
  destruct (py_ceil_not_finite
              (fmul (fmul (fmul sp (float_of_decimal (complexity_coefficient std))) qf)
                    (fadd fone (float_of_decimal (overconsumption_percent mtd)))))
    as [e He].
  { by do 3 apply fmul_not_finite_l. }
  rewrite He. by eexists.
Qed.

(** A service parameter that is NaN or [+inf] passes the validation, as
    neither is [<= 0], but never yields a quantity: the call fails, on a
    missing type or in the arithmetic, and not as an invalid input. *)
Theorem non_finite_parameter_fails (db : Catalog) (service_type material_type : string)
    (q : Z) (sp : float) :
  0 < q -> sp = S754_nan \/ sp = S754_infinity false ->
  exists r,
    calculate_material_quantity db service_type material_type (PyInt q) (PyFloat sp)
    = fail r /\
    category r <> InvalidInput.
Proof. apply calculate_material_quantity_non_finite. Qed.

Lemma non_finite_parameter_fails_witness :
  0 < 3 /\ (S754_nan = S754_nan \/ S754_nan = S754_infinity false) /\
  exists r,
    calculate_material_quantity sample_catalog "A" "B" (PyInt 3) (PyFloat S754_nan)
    = fail r /\
    category r <> InvalidInput.
Proof.
  assert (Hq : 0 < 3) by lia.
  assert (Hsp : S754_nan = S754_nan \/ S754_nan = S754_infinity false) by (left; reflexivity).
  split; [exact Hq|]. split; [exact Hsp|].
  exact (non_finite_parameter_fails sample_catalog "A" "B" 3 S754_nan Hq Hsp).
Defined.

(** A positive integer given as the service parameter is converted to the
    nearest double, and the call behaves as if that double had been given. *)
Theorem integer_parameter_as_float (db : Catalog) (service_type material_type : string)
    (quantity : PyVal) (k : Z) (f : float) :
  0 < k -> int_to_float k = inr f ->
  calculate_material_quantity db service_type material_type quantity (PyInt k)
  = calculate_material_quantity db service_type material_type quantity (PyFloat f).
Proof.
  intros Hk Hf. unfold calculate_material_quantity.
  cbn [as_number as_int fmap option_fmap option_map number_le_zero].
  destruct (int_to_float_pos k f Hk Hf) as (_ & Nf & _ & Hone).
  assert (Hle : fleb f fzero = false).
  { clear -Nf Hone. by destruct f as [[] | [] | | [] p e]. }
  rewrite Hle. destruct (Z.leb_spec k 0) as [|_]; [lia|].
  unfold material_quantity_formula. cbn [to_float]. rewrite Hf. done.
Qed.

Lemma integer_parameter_as_float_witness :
  0 < 2 /\ int_to_float 2 = inr f_two /\
  calculate_material_quantity sample_catalog "A" "B" (PyInt 3) (PyInt 2)
  = calculate_material_quantity sample_catalog "A" "B" (PyInt 3) (PyFloat f_two).
Proof.
  assert (Hk : 0 < 2) by lia.
  assert (Hf : int_to_float 2 = inr f_two) by (vm_compute; reflexivity).
  split; [exact Hk|]. split; [exact Hf|].
  exact (integer_parameter_as_float sample_catalog "A" "B" (PyInt 3) 2 f_two Hk Hf).
Defined.

(** With an overconsumption of zero nothing is added: the call returns
    exactly the ceiling of the binary64 product [serviceParams *
    complexityCoefficient * quantity]. *)
Theorem zero_overconsumption_adds_nothing (db : Catalog)
    (service_type material_type : string) (q : Z) (sp : float)
    (service_type_data : ServiceType) (material_type_data : MaterialType) (n : Z) :
  service_types db !! service_type = Some service_type_data ->
  material_types db !! material_type = Some material_type_data ->
  unscaled (overconsumption_percent material_type_data) = 0 ->
  0 < q -> is_double sp -> fltb fzero sp = true ->
  calculate_material_quantity db service_type material_type (PyInt q) (PyFloat sp)
  = ret (PyInt n) <->
  exists qf, int_to_float q = inr qf /\
             py_ceil (fmul (fmul sp (float_of_decimal
                                       (complexity_coefficient service_type_data))) qf)
             = inr n.
Proof.
  intros Hst Hmt Hzero Hq Dsp Hsp.
  rewrite (calculate_material_quantity_success _ _ _ _ _ _ _ _ Hst Hmt Hq Hsp).
  assert (Heq : forall qf, int_to_float q = inr qf ->
            spec_total_quantity sp (complexity_coefficient service_type_data) qf
              (overconsumption_percent material_type_data)
            = fmul (fmul sp (float_of_decimal (complexity_coefficient service_type_data))) qf).
  { intros qf Hqf. unfold spec_total_quantity, float_of_decimal at 2. rewrite Hzero.
    change (fadd fone (S754_zero false)) with fone.
    apply fmul_one_r, fmul_is_double; [|by eapply int_to_float_is_double].
    apply fmul_is_double; [done | apply float_of_decimal_is_double]. }
  split; intros (qf & Hqf & Hn); exists qf; (split; [done|]).
  - by rewrite <- Heq.
  - by rewrite Heq.
Qed.

Lemma zero_overconsumption_adds_nothing_witness :
  service_types sample_catalog !! "A" = Some (mkServiceType (mkDecimal 15 1)) /\
  material_types sample_catalog !! "Z" = Some (mkMaterialType (mkDecimal 0 2)) /\
  unscaled (overconsumption_percent (mkMaterialType (mkDecimal 0 2))) = 0 /\
  0 < 3 /\ is_double f_two /\ fltb fzero f_two = true /\
  (calculate_material_quantity sample_catalog "A" "Z" (PyInt 3) (PyFloat f_two)
   = ret (PyInt 9) <->
   exists qf, int_to_float 3 = inr qf /\
              py_ceil (fmul (fmul f_two (float_of_decimal (mkDecimal 15 1))) qf) = inr 9).
Proof.
  assert (Hst : service_types sample_catalog !! "A" = Some (mkServiceType (mkDecimal 15 1)))
    by (vm_compute; reflexivity).
  assert (Hmt : material_types sample_catalog !! "Z" = Some (mkMaterialType (mkDecimal 0 2)))
    by (vm_compute; reflexivity).
  assert (Hzero : unscaled (overconsumption_percent (mkMaterialType (mkDecimal 0 2))) = 0)
    by reflexivity.
  assert (Hq : 0 < 3) by lia.
  assert (Dsp : is_double f_two) by reflexivity.
  assert (Hsp : fltb fzero f_two = true) by reflexivity.
  split; [exact Hst|]. split; [exact Hmt|]. split; [exact Hzero|]. split; [exact Hq|].
  split; [exact Dsp|]. split; [exact Hsp|].
  exact (zero_overconsumption_adds_nothing sample_catalog "A" "Z" 3 f_two _ _ 9
           Hst Hmt Hzero Hq Dsp Hsp).
Defined.

(* ===================================================================== *)
(** * The page [cost] *)
(* ===================================================================== *)

(** For a service code that is not in the catalog the page redirects to the
    index with the "not found" message; the miss has been logged twice, by
    the engine and by the page. *)
Theorem cost_page_unknown_service (db : Catalog) (service_code : string) :
  services db !! service_code = None ->
  cost db service_code
  = {| page_logged := [Logged (ServiceNotFound service_code);
                       Logged (ServiceNotFound service_code)];
       flashed := [ServiceNotFoundFlash];
       response := Redirect index_endpoint |}.
Proof. intros Hs. unfold cost, calculate_service_cost. by rewrite Hs. Qed.

Lemma cost_page_unknown_service_witness :
  services sample_catalog !! "S9" = None /\
  cost sample_catalog "S9"
  = {| page_logged := [Logged (ServiceNotFound "S9"); Logged (ServiceNotFound "S9")];
       flashed := [ServiceNotFoundFlash];
       response := Redirect index_endpoint |}.
Proof.
  assert (Hs : services sample_catalog !! "S9" = None) by (vm_compute; reflexivity).
  split; [exact Hs | exact (cost_page_unknown_service sample_catalog "S9" Hs)].
Defined.

(** The page does not test the sentinel: for a service that exists but has
    no consumption row, or has a row whose material is missing, the cost
    page is rendered with [-1] as the total cost and no message is flashed;
    the failure is only in the log. *)
Theorem cost_page_shows_sentinel (db : Catalog) (service_code : string) (service : Service) :
  services db !! service_code = Some service ->
  materials_of_service db service_code = [] \/
  Exists (fun sm => materials db !! sm_material_id sm = None)
         (materials_of_service db service_code) ->
  response (cost db service_code)
  = RenderCost service_code (service_name service) (PyInt (-1)) /\
  flashed (cost db service_code) = [] /\
  exists r, page_logged (cost db service_code) = [Logged r].
Proof.
  intros Hs Hbad. unfold cost. rewrite Hs. cbn [response flashed page_logged].
  assert (Hfail : exists r, calculate_service_cost db service_code = fail r).
  { unfold calculate_service_cost. rewrite Hs. destruct Hbad as [-> | Hex]; [by eexists|].
    destruct (sum_material_cost_unresolved (materials db) _ fzero Hex) as (sm & Hin & _ & Hsum).
    destruct (materials_of_service db service_code) as [| sm0 rows];
      [by apply elem_of_nil in Hin|].
    rewrite Hsum. by eexists. }
  destruct Hfail as [r ->]. split; [done|]. split; [done|]. by exists r.
Qed.

Lemma cost_page_shows_sentinel_witness :
  services sample_catalog !! "S3"
  = Some (mkService "C" "Audit" (mkDecimal 0 2) (mkDecimal 100 2) (mkDecimal 100 2)) /\
  (materials_of_service sample_catalog "S3" = [] \/
   Exists (fun sm => materials sample_catalog !! sm_material_id sm = None)
          (materials_of_service sample_catalog "S3")) /\
  response (cost sample_catalog "S3") = RenderCost "S3" "Audit" (PyInt (-1)) /\
  flashed (cost sample_catalog "S3") = [] /\
  exists r, page_logged (cost sample_catalog "S3") = [Logged r].
Proof.
  assert (Hs : services sample_catalog !! "S3"
               = Some (mkService "C" "Audit" (mkDecimal 0 2) (mkDecimal 100 2)
                         (mkDecimal 100 2))) by (vm_compute; reflexivity).
  assert (Hbad : materials_of_service sample_catalog "S3" = [] \/
                 Exists (fun sm => materials sample_catalog !! sm_material_id sm = None)
                        (materials_of_service sample_catalog "S3"))
    by (left; vm_compute; reflexivity).
  split; [exact Hs|]. split; [exact Hbad|].
  exact (cost_page_shows_sentinel sample_catalog "S3" _ Hs Hbad).
Defined.

(* ===================================================================== *)
(** * The page [material] *)
(* ===================================================================== *)

(** Whatever is posted, the answer is a redirect to the page itself with
    exactly one flashed message. *)
Theorem material_post_redirects_with_one_flash (int_of : string -> option Z)
    (float_of : string -> option float) (db : Catalog) (form : gmap string string) :
  response (material int_of float_of db POST form) = Redirect material_endpoint /\
  length (flashed (material int_of float_of db POST form)) = 1%nat.
Proof.
  unfold material.
  repeat match goal with
         | |- context [match ?x with _ => _ end] => destruct x
         end; done.
Qed.

(** The page checks the sign of the quantity and of the parameter before
    it calls the engine with an [int] and a [float], so the validation of
    the engine never fires: no record of an invalid input is logged. *)
Theorem material_post_never_invalid_input (int_of : string -> option Z)
    (float_of : string -> option float) (db : Catalog) (form : gmap string string) :
  Forall not_invalid_input (page_logged (material int_of float_of db POST form)).
Proof.
  unfold material.
  destruct (form !! "service_type") as [service_type |]; [|by repeat constructor].
  destruct (form !! "material_type") as [material_type |]; [|by repeat constructor].
  destruct (form !! "quantity") as [quantity_field |]; [|by repeat constructor].
  destruct (int_of quantity_field) as [quantity |]; [|by repeat constructor].
  destruct (form !! "service_params") as [params_field |]; [|by repeat constructor].
  destruct (float_of params_field) as [service_params |]; [|by repeat constructor].
  destruct (Z.leb_spec quantity 0) as [| Hq]; [by constructor|].
  destruct (fleb service_params fzero) eqn:Hsp; [by constructor|].
  assert (Hlog : Forall not_invalid_input
                   (Logged <$> logged (calculate_material_quantity db service_type
                      material_type (PyInt quantity) (PyFloat service_params)))).
  { unfold calculate_material_quantity. cbn [as_int as_number number_le_zero].
    destruct (Z.leb_spec quantity 0) as [|_]; [lia|]. rewrite Hsp.
    destruct (service_types db !! service_type); [|by repeat constructor].
    destruct (material_types db !! material_type); [|by repeat constructor].
    destruct (material_quantity_formula _ _ _ _); by repeat constructor. }
  by destruct (is_minus_one _).
Qed.

(** The types named in a call that returns a quantity exist. *)
Lemma calculate_material_quantity_ret_types (db : Catalog)
    (service_type material_type : string) (quantity service_params : PyVal) (v : PyVal) :
  calculate_material_quantity db service_type material_type quantity service_params = ret v ->
  is_Some (service_types db !! service_type) /\
  is_Some (material_types db !! material_type) /\
  exists n, v = PyInt n.
Proof.
  unfold calculate_material_quantity.
  destruct (as_int quantity) as [q |]; [|by intros ?%reject_not_ret].
  destruct (q <=? 0); [by intros ?%reject_not_ret|].
  destruct (as_number service_params) as [sp |]; [|by intros ?%reject_not_ret].
  destruct (number_le_zero sp); [by intros ?%reject_not_ret|].
  destruct (service_types db !! service_type); [|done].
  destruct (material_types db !! material_type); [|done].
  destruct (material_quantity_formula _ _ _ _) as [e | n]; [done|].
  intros [= <-]. eauto.
Qed.

(** The success message is sound: when the page flashes a quantity, the
    four fields were posted and converted, the quantity was positive, both
    types exist in the catalog, and the value shown is the integer the
    engine returned for them, which is not [-1]. *)
Theorem material_success_flash_sound (int_of : string -> option Z)
    (float_of : string -> option float) (db : Catalog) (form : gmap string string)
    (v : PyVal) :
  flashed (material int_of float_of db POST form) = [QuantityNeededFlash v] ->
  exists service_type material_type quantity_field params_field q sp n,
    form !! "service_type" = Some service_type /\
    form !! "material_type" = Some material_type /\
    form !! "quantity" = Some quantity_field /\
    form !! "service_params" = Some params_field /\
    int_of quantity_field = Some q /\ float_of params_field = Some sp /\
    0 < q /\
    is_Some (service_types db !! service_type) /\
    is_Some (material_types db !! material_type) /\
    calculate_material_quantity db service_type material_type (PyInt q) (PyFloat sp)
    = ret (PyInt n) /\
    v = PyInt n /\ n <> -1.
Proof.
  unfold material.
  destruct (form !! "service_type") as [service_type |]; [|done].
  destruct (form !! "material_type") as [material_type |]; [|done].
  destruct (form !! "quantity") as [quantity_field |]; [|done].
  destruct (int_of quantity_field) as [q |] eqn:Hint; [|done].
  destruct (form !! "service_params") as [params_field |]; [|done].
  destruct (float_of params_field) as [sp |] eqn:Hfloat; [|done].
  destruct (Z.leb_spec q 0) as [| Hq]; [done|].
  destruct (fleb sp fzero); [done|].
  destruct (calculate_material_quantity_cases db service_type material_type
              (PyInt q) (PyFloat sp)) as [[n Hok] | [r Hfail]].
  - rewrite Hok. cbn [returned ret is_minus_one].
    destruct (Z.eqb_spec n (-1)) as [| Hn]; [done|].
    cbn [flashed material_answer]. intros [= <-].
    destruct (calculate_material_quantity_ret_types _ _ _ _ _ _ Hok) as (Hst & Hmt & _).
    exists service_type, material_type, quantity_field, params_field, q, sp, n.
    repeat split; done.
  - rewrite Hfail. done.
Qed.

Lemma material_success_flash_sound_witness :
  flashed (material sample_int_of sample_float_of sample_catalog POST
             (sample_form "3" "2.0")) = [QuantityNeededFlash (PyInt 10)] /\
  exists service_type material_type quantity_field params_field q sp n,
    sample_form "3" "2.0" !! "service_type" = Some service_type /\
    sample_form "3" "2.0" !! "material_type" = Some material_type /\
    sample_form "3" "2.0" !! "quantity" = Some quantity_field /\
    sample_form "3" "2.0" !! "service_params" = Some params_field /\
    sample_int_of quantity_field = Some q /\ sample_float_of params_field = Some sp /\
    0 < q /\
    is_Some (service_types sample_catalog !! service_type) /\
    is_Some (material_types sample_catalog !! material_type) /\
    calculate_material_quantity sample_catalog service_type material_type
      (PyInt q) (PyFloat sp) = ret (PyInt n) /\
    PyInt 10 = PyInt n /\ n <> -1.
Proof.
  assert (Hflash : flashed (material sample_int_of sample_float_of sample_catalog POST
                              (sample_form "3" "2.0")) = [QuantityNeededFlash (PyInt 10)])
    by (vm_compute; reflexivity).
  split; [exact Hflash|].
  exact (material_success_flash_sound sample_int_of sample_float_of sample_catalog
           (sample_form "3" "2.0") (PyInt 10) Hflash).
Defined.

(** A parameter field that converts to NaN or to [+inf] (the strings "nan"
    and "inf" do) passes the checks of the page and of the engine; the call
    fails and the page blames the types, even when both exist. *)
Theorem material_non_finite_parameter_blames_type (int_of : string -> option Z)
    (float_of : string -> option float) (db : Catalog) (form : gmap string string)
    (service_type material_type quantity_field params_field : string) (q : Z) (sp : float) :
  form !! "service_type" = Some service_type ->
  form !! "material_type" = Some material_type ->
  form !! "quantity" = Some quantity_field ->
  form !! "service_params" = Some params_field ->
  int_of quantity_field = Some q -> float_of params_field = Some sp ->
  0 < q -> sp = S754_nan \/ sp = S754_infinity false ->
  flashed (material int_of float_of db POST form) = [WrongTypeFlash].
Proof.
  intros Hst Hmt Hqf Hpf Hint Hfloat Hq Hsp. unfold material.
  rewrite Hst, Hmt, Hqf, Hint, Hpf, Hfloat.
  destruct (Z.leb_spec q 0) as [|_]; [lia|].
  assert (Hle : fleb sp fzero = false) by (by destruct Hsp as [-> | ->]).
  rewrite Hle.
  destruct (calculate_material_quantity_non_finite db service_type material_type q sp Hq Hsp)
    as (r & -> & _).
  done.
Qed.

Lemma material_non_finite_parameter_blames_type_witness :
  sample_form "3" "nan" !! "service_type" = Some "A" /\
  sample_form "3" "nan" !! "material_type" = Some "B" /\
  sample_form "3" "nan" !! "quantity" = Some "3" /\
  sample_form "3" "nan" !! "service_params" = Some "nan" /\
  sample_int_of "3" = Some 3 /\ sample_float_of "nan" = Some S754_nan /\
  0 < 3 /\ (S754_nan = S754_nan \/ S754_nan = S754_infinity false) /\
  is_Some (service_types sample_catalog !! "A") /\
  is_Some (material_types sample_catalog !! "B") /\
  flashed (material sample_int_of sample_float_of sample_catalog POST
             (sample_form "3" "nan")) = [WrongTypeFlash].
Proof.
  assert (H1 : sample_form "3" "nan" !! "service_type" = Some "A")
    by (vm_compute; reflexivity).
  assert (H2 : sample_form "3" "nan" !! "material_type" = Some "B")
    by (vm_compute; reflexivity).
  assert (H3 : sample_form "3" "nan" !! "quantity" = Some "3")
    by (vm_compute; reflexivity).
  assert (H4 : sample_form "3" "nan" !! "service_params" = Some "nan")
    by (vm_compute; reflexivity).
  assert (H5 : sample_int_of "3" = Some 3) by reflexivity.
  assert (H6 : sample_float_of "nan" = Some S754_nan) by reflexivity.
  assert (H7 : 0 < 3) by lia.
  assert (H8 : S754_nan = S754_nan \/ S754_nan = S754_infinity false) by (left; reflexivity).
  split; [exact H1|]. split; [exact H2|]. split; [exact H3|]. split; [exact H4|].
  split; [exact H5|]. split; [exact H6|]. split; [exact H7|]. split; [exact H8|].
  split; [vm_compute; eauto|]. split; [vm_compute; eauto|].
  exact (material_non_finite_parameter_blames_type sample_int_of sample_float_of
           sample_catalog (sample_form "3" "nan") "A" "B" "3" "nan" 3 S754_nan
           H1 H2 H3 H4 H5 H6 H7 H8).
Defined.
